(** * The booking-request service

    A shallow embedding of the three server programs of the repository

      - [Server]     : server/server.js, the Postgres server with the
                       admin listing and the admin status update;
      - [FileServer] : the file-based (SQLite) server, which keeps the
                       date and window sequences as JSON text;
      - [PgDraft]    : the earlier Postgres server that follows the
                       table declaration in server/db.js;

    together with the parts of JavaScript they rely on: dynamically
    typed values, truthiness, string coercion, [String.prototype.trim],
    the two regular expressions, and [JSON.stringify] / [JSON.parse]. *)

From Stdlib Require Import String Ascii List ZArith NArith Lia Bool.
From Stdlib Require Import Sorting.Sorted Sorting.Permutation.
From Stdlib Require DecimalString.
Import ListNotations.
Local Open Scope string_scope.

(* ================================================================== *)
(** * JavaScript values *)
(* ================================================================== *)

Module JS.

(** A number, kept as [Number::toString] reads it: the sign, the decimal
    digits and the power of ten of a finite number (the value is
    [digits * 10 ^ exponent]; which digits a numeric literal of a request
    stands for is decided by the parser, before a route runs), or an
    infinity, which [JSON.parse] gives for a literal out of range.  The
    parsers never give NaN. *)
Inductive number : Type :=
| Finite (negative : bool) (digits : N) (exponent : Z)
| Infinite (negative : bool).

(** The number of an integer. *)
Definition int (z : Z) : number := Finite (z <? 0)%Z (Z.abs_N z) 0.

(** What [JSON.parse] (the body parser) and the query-string parser hand
    to a route.  Strings are sequences of code units below 256; an
    object keeps its own properties in order, each name once, and all of
    them data: a parsed value holds no function. *)
#[warnings="-register-all"]
Inductive value : Type :=
| VUndefined
| VNull
| VBool (b : bool)
| VNum (n : number)
| VStr (s : string)
| VArr (items : list value)
| VObj (props : list (string * value)).

(** Induction with the hypothesis available on the items of an array. *)
Fixpoint value_ind' (P : value -> Prop)
    (Hu : P VUndefined) (Hn : P VNull) (Hb : forall b, P (VBool b))
    (Hz : forall n, P (VNum n)) (Hs : forall s, P (VStr s))
    (Ha : forall items, Forall P items -> P (VArr items))
    (Ho : forall props, P (VObj props))
    (v : value) : P v :=
  match v with
  | VUndefined => Hu
  | VNull => Hn
  | VBool b => Hb b
  | VNum n => Hz n
  | VStr s => Hs s
  | VArr items =>
      Ha items
        ((fix all (l : list value) : Forall P l :=
            match l with
            | [] => Forall_nil P
            | x :: l' =>
                Forall_cons x (value_ind' P Hu Hn Hb Hz Hs Ha Ho x) (all l')
            end) items)
  | VObj props => Ho props
  end.

(** What a call can end in: a value, or a thrown error.  The message of
    a TypeError or a SyntaxError is worded by the engine, differently
    from one engine and call site to the next; [msg] names the cause,
    and no route reads it. *)
Inductive exn : Type :=
| TypeError (msg : string)
| SyntaxError (msg : string)
| StoreError (msg : string).

Inductive outcome (A : Type) : Type :=
| Returns (a : A)
| Throws (e : exn).
Arguments Returns {A} a.
Arguments Throws {A} e.

Definition bind {A B : Type} (m : outcome A) (k : A -> outcome B) : outcome B :=
  match m with
  | Returns a => k a
  | Throws e => Throws e
  end.

Notation "x <- m ;; k" := (bind m (fun x => k))
  (at level 61, m at next level, right associativity).

(** [x?.k] for the property names the servers read (none of them is a
    property of a string, number, boolean or array). *)
Fixpoint lookup (k : string) (props : list (string * value)) : value :=
  match props with
  | [] => VUndefined
  | (k', v) :: rest => if String.eqb k k' then v else lookup k rest
  end.

Definition opt_get (v : value) (k : string) : value :=
  match v with
  | VObj props => lookup k props
  | _ => VUndefined
  end.

(** ToBoolean. *)
Definition truthy (v : value) : bool :=
  match v with
  | VUndefined | VNull => false
  | VBool b => b
  | VNum (Finite _ d _) => negb (d =? 0)%N
  | VNum (Infinite _) => true
  | VStr s => negb (s =? "")
  | VArr _ | VObj _ => true
  end.

(** [a || b]. *)
Definition or_else (a b : value) : value := if truthy a then a else b.

(** ** Numbers as strings *)

Definition decimal (n : N) : string :=
  DecimalString.NilZero.string_of_uint (N.to_uint n).

Fixpoint zeros (n : nat) : string :=
  match n with
  | O => EmptyString
  | S n' => String "0" (zeros n')
  end.

(** A string of digits without the zeros it ends with. *)
Fixpoint drop_zeros (s : string) : string :=
  match s with
  | EmptyString => EmptyString
  | String c s' =>
      match drop_zeros s' with
      | EmptyString => if Ascii.eqb c "0" then EmptyString else String c EmptyString
      | t => String c t
      end
  end.

Fixpoint first_chars (n : nat) (s : string) : string :=
  match n, s with
  | S n', String c s' => String c (first_chars n' s')
  | _, _ => EmptyString
  end.

Fixpoint after_chars (n : nat) (s : string) : string :=
  match n, s with
  | S n', String _ s' => after_chars n' s'
  | _, _ => s
  end.

(** Number::toString in radix 10.  With [s] the digits of the number
    without trailing zeros, [k] their count and the value
    [s * 10 ^ (n - k)]: the digits followed by zeros when
    [k <= n <= 21], a decimal point inside the digits when
    [0 < n <= 21], zeros after [0.] when [-6 < n <= 0], and the
    exponent form otherwise. *)
Definition number_to_string (x : number) : string :=
  match x with
  | Infinite neg => (if neg then "-" else "") ++ "Infinity"
  | Finite neg d e =>
      if (d =? 0)%N then "0"
      else
        let all := decimal d in
        let s := drop_zeros all in
        let k := Z.of_nat (String.length s) in
        let n := (Z.of_nat (String.length all) + e)%Z in
        (if neg then "-" else "") ++
        (if ((k <=? n) && (n <=? 21))%Z then s ++ zeros (Z.to_nat (n - k))
         else if ((0 <? n) && (n <=? 21))%Z
         then first_chars (Z.to_nat n) s ++ "." ++ after_chars (Z.to_nat n) s
         else if ((-6 <? n) && (n <=? 0))%Z
         then "0." ++ zeros (Z.to_nat (- n)) ++ s
         else
           let mantissa :=
             match s with
             | String c (String c' t) => String c ("." ++ String c' t)
             | _ => s
             end in
           mantissa ++ "e" ++ (if (0 <=? n - 1)%Z then "+" else "-")
           ++ decimal (Z.abs_N (n - 1)))
  end.

(** ** String coercion *)

Definition has_own (k : string) (props : list (string * value)) : bool :=
  existsb (fun p => String.eqb k (fst p)) props.

(** Can the value be turned into a string?  The properties of a parsed
    object are data, none of them a function: an object with a property
    named toString of its own has no method to be converted with, on
    which ToPrimitive throws a TypeError (the inherited valueOf returns
    the object itself), and an array is converted item by item. *)
Fixpoint printable (v : value) : bool :=
  match v with
  | VArr items =>
      (fix all (l : list value) : bool :=
         match l with
         | [] => true
         | x :: rest => printable x && all rest
         end) items
  | VObj props => negb (has_own "toString" props)
  | _ => true
  end.

(** The string of a value that can be turned into one.  An array joins
    its items with commas, an undefined or null item giving the empty
    string; an object gives what Object.prototype.toString gives. *)
Fixpoint to_string (v : value) : string :=
  match v with
  | VUndefined => "undefined"
  | VNull => "null"
  | VBool true => "true"
  | VBool false => "false"
  | VNum n => number_to_string n
  | VStr s => s
  | VArr items =>
      (fix join (l : list value) : string :=
         match l with
         | [] => ""
         | x :: rest =>
             let sx := match x with
                       | VUndefined | VNull => ""
                       | _ => to_string x
                       end in
             match rest with
             | [] => sx
             | _ :: _ => sx ++ "," ++ join rest
             end
         end) items
  | VObj _ => "[object Object]"
  end.

(** ToString, as [String(v)], a template literal and [RegExp.test] apply
    it to their argument. *)
Definition ToString (v : value) : outcome string :=
  if printable v then Returns (to_string v)
  else Throws (TypeError "Cannot convert object to primitive value").

Definition is_array (v : value) : bool :=
  match v with VArr _ => true | _ => false end.

(** ** Strings *)

Definition is_digit (c : ascii) : bool :=
  let n := N_of_ascii c in ((48 <=? n) && (n <=? 57))%N.

(** White space and line terminators below 256: tab, line feed, vertical
    tab, form feed, carriage return, space, no-break space. *)
Definition is_space (c : ascii) : bool :=
  let n := N_of_ascii c in
  ((9 <=? n) && (n <=? 13) || (n =? 32) || (n =? 160))%N.

Fixpoint trim_start (s : string) : string :=
  match s with
  | EmptyString => EmptyString
  | String c s' => if is_space c then trim_start s' else s
  end.

Fixpoint trim_end (s : string) : string :=
  match s with
  | EmptyString => EmptyString
  | String c s' =>
      match trim_end s' with
      | EmptyString => if is_space c then EmptyString else String c EmptyString
      | t => String c t
      end
  end.

Definition trim (s : string) : string := trim_end (trim_start s).

(** [v.trim()]: only a string has the method; on anything else the call
    throws a TypeError. *)
Definition call_trim (v : value) : outcome string :=
  match v with
  | VStr s => Returns (trim s)
  | _ => Throws (TypeError "trim is not a function")
  end.

(** [s || null] on a string. *)
Definition or_null (s : string) : option string :=
  if s =? "" then None else Some s.

End JS.

(* ================================================================== *)
(** * Regular expressions *)
(* ================================================================== *)

Module Regex.

(** The constructs the two patterns of the servers are written with: the
    classes [\d] and [\D], a literal character, concatenation and the
    counted repetition [{n}]. *)
Inductive cclass : Type :=
| Digit
| NonDigit
| Lit (c : ascii).

Inductive regex : Type :=
| Chr (c : cclass)
| Cat (r1 r2 : regex)
| Rep (n : nat) (r : regex).

Definition class_matches (c : cclass) (a : ascii) : bool :=
  match c with
  | Digit => JS.is_digit a
  | NonDigit => negb (JS.is_digit a)
  | Lit c' => Ascii.eqb a c'
  end.

(** Backtracking matcher: [run r s k] matches a prefix of [s] against
    [r] and hands the rest to the continuation [k]. *)
Fixpoint run (r : regex) (s : string) (k : string -> bool) : bool :=
  match r with
  | Chr c =>
      match s with
      | EmptyString => false
      | String a s' => class_matches c a && k s'
      end
  | Cat r1 r2 => run r1 s (fun s' => run r2 s' k)
  | Rep n r' =>
      (fix rep (n : nat) (s : string) : bool :=
         match n with
         | O => k s
         | S n' => run r' s (fun s' => rep n' s')
         end) n s
  end.

Definition at_end (s : string) : bool :=
  match s with EmptyString => true | String _ _ => false end.

(** [/^r$/.test(s)]: without the m flag the two anchors are the start
    and the end of the whole input. *)
Definition test_anchored (r : regex) (s : string) : bool := run r s at_end.

(** [s.replace(/c/g, by)] for a pattern that is one character class:
    every match is one character. *)
Fixpoint replace_class (c : cclass) (by_ : string) (s : string) : string :=
  match s with
  | EmptyString => EmptyString
  | String a s' =>
      if class_matches c a then by_ ++ replace_class c by_ s'
      else String a (replace_class c by_ s')
  end.

End Regex.

(* ================================================================== *)
(** * Helpers shared by the three servers *)
(* ================================================================== *)

Module Helpers.
Import JS Regex.

(** [String(phone || "").replace(/\D/g, "")] *)
Definition normalizePhone (phone : value) : outcome string :=
  s <- ToString (or_else phone (VStr "")) ;;
  Returns (replace_class NonDigit "" s).

(** [/^\d{4}-\d{2}-\d{2}$/] *)
Definition iso_date_re : regex :=
  Cat (Rep 4 (Chr Digit))
      (Cat (Chr (Lit "-"))
           (Cat (Rep 2 (Chr Digit))
                (Cat (Chr (Lit "-")) (Rep 2 (Chr Digit))))).

(** [/^\d{4}-\d{2}-\d{2}$/.test(iso)]; [test] coerces its argument. *)
Definition isValidISODate (iso : value) : outcome bool :=
  s <- ToString iso ;;
  Returns (test_anchored iso_date_re s).

End Helpers.

(* ================================================================== *)
(** * JSON text *)
(* ================================================================== *)

Module Json.
Import JS.

Definition dquote : ascii := "034"%char.
Definition backslash : ascii := "092"%char.

Definition hex_digit (n : N) : ascii :=
  ascii_of_N (if (n <? 10)%N then 48 + n else 87 + n).

(** QuoteJSONString on one code unit: the two-character escapes, the
    [\u00xx] form for the other control characters, anything else as it
    is. *)
Definition quote_char (c : ascii) : string :=
  let n := N_of_ascii c in
  if (n =? 8)%N then "\b"
  else if (n =? 9)%N then "\t"
  else if (n =? 10)%N then "\n"
  else if (n =? 12)%N then "\f"
  else if (n =? 13)%N then "\r"
  else if (n =? 34)%N then String backslash (String dquote "")
  else if (n =? 92)%N then String backslash (String backslash "")
  else if (n <? 32)%N
       then "\u00" ++ String (hex_digit (n / 16)) (String (hex_digit (n mod 16)) "")
  else String c "".

Fixpoint quote_body (s : string) : string :=
  match s with
  | EmptyString => EmptyString
  | String c s' => quote_char c ++ quote_body s'
  end.

Definition quote (s : string) : string :=
  String dquote (quote_body s ++ String dquote "").

Fixpoint join (sep : string) (parts : list string) : string :=
  match parts with
  | [] => ""
  | [p] => p
  | p :: rest => p ++ sep ++ join sep rest
  end.

(** [JSON.stringify(v)]: nothing for undefined, null for an infinity;
    inside an array an undefined item is written as null, inside an
    object a property with an undefined value is left out. *)
Fixpoint stringify (v : value) : option string :=
  match v with
  | VUndefined => None
  | VNull => Some "null"
  | VBool true => Some "true"
  | VBool false => Some "false"
  | VNum (Infinite _) => Some "null"
  | VNum n => Some (number_to_string n)
  | VStr s => Some (quote s)
  | VArr items =>
      Some ("[" ++
            join ","
              ((fix elems (l : list value) : list string :=
                  match l with
                  | [] => []
                  | x :: rest =>
                      match stringify x with
                      | Some t => t
                      | None => "null"
                      end :: elems rest
                  end) items)
            ++ "]")
  | VObj props =>
      Some ("{" ++
            join ","
              ((fix members (l : list (string * value)) : list string :=
                  match l with
                  | [] => []
                  | (k, x) :: rest =>
                      match stringify x with
                      | Some t => (quote k ++ ":" ++ t) :: members rest
                      | None => members rest
                      end
                  end) props)
            ++ "}")
  end.

(** ** Reading JSON text

    The reader covers the texts the servers store: null, true, false,
    strings with every escape, and arrays, with white space between the
    tokens.  A number or an object is outside this fragment, as is an
    escape [\uXXXX] of a code unit above 255: the reader gives nothing
    for them, as it does for malformed text. *)

Definition is_json_space (c : ascii) : bool :=
  let n := N_of_ascii c in
  ((n =? 32) || (n =? 9) || (n =? 10) || (n =? 13))%N.

Fixpoint skip_ws (s : string) : string :=
  match s with
  | EmptyString => EmptyString
  | String c s' => if is_json_space c then skip_ws s' else s
  end.

Definition hex_value (c : ascii) : option N :=
  let n := N_of_ascii c in
  if ((48 <=? n) && (n <=? 57))%N then Some (n - 48)%N
  else if ((97 <=? n) && (n <=? 102))%N then Some (n - 87)%N
  else if ((65 <=? n) && (n <=? 70))%N then Some (n - 55)%N
  else None.

Definition hex4 (a b c d : ascii) : option N :=
  match hex_value a, hex_value b, hex_value c, hex_value d with
  | Some x, Some y, Some z, Some w => Some (((x * 16 + y) * 16 + z) * 16 + w)%N
  | _, _, _, _ => None
  end.

(** The character a two-character escape stands for. *)
Definition unescape (e : ascii) : option ascii :=
  let n := N_of_ascii e in
  if (n =? 34)%N then Some dquote
  else if (n =? 92)%N then Some backslash
  else if (n =? 47)%N then Some "/"%char
  else if (n =? 98)%N then Some (ascii_of_N 8)
  else if (n =? 102)%N then Some (ascii_of_N 12)
  else if (n =? 110)%N then Some (ascii_of_N 10)
  else if (n =? 114)%N then Some (ascii_of_N 13)
  else if (n =? 116)%N then Some (ascii_of_N 9)
  else None.

Definition cons_to (c : ascii) (r : option (string * string))
  : option (string * string) :=
  match r with
  | Some (str, rest) => Some (String c str, rest)
  | None => None
  end.

(** The characters of a string up to its closing quote, and the text
    after the quote. *)
Fixpoint read_string (s : string) : option (string * string) :=
  match s with
  | EmptyString => None
  | String c s' =>
      if Ascii.eqb c dquote then Some (EmptyString, s')
      else if Ascii.eqb c backslash then
        match s' with
        | EmptyString => None
        | String e s'' =>
            match unescape e with
            | Some ch => cons_to ch (read_string s'')
            | None =>
                if Ascii.eqb e "u" then
                  match s'' with
                  | String h1 (String h2 (String h3 (String h4 s3))) =>
                      match hex4 h1 h2 h3 h4 with
                      | Some n =>
                          if (n <? 256)%N
                          then cons_to (ascii_of_N n) (read_string s3)
                          else None
                      | None => None
                      end
                  | _ => None
                  end
                else None
            end
        end
      else if (N_of_ascii c <? 32)%N then None
      else cons_to c (read_string s')
  end.

(** [s] without the prefix [p], when it starts with it. *)
Fixpoint strip (p s : string) : option string :=
  match p, s with
  | EmptyString, _ => Some s
  | String a p', String b s' => if Ascii.eqb a b then strip p' s' else None
  | String _ _, EmptyString => None
  end.

Definition literal (p : string) (v : value) (s : string) : option (value * string) :=
  match strip p s with
  | Some rest => Some (v, rest)
  | None => None
  end.

Fixpoint read_value (fuel : nat) (s : string) : option (value * string) :=
  match fuel with
  | O => None
  | S fuel' =>
      match skip_ws s with
      | EmptyString => None
      | String c rest =>
          if Ascii.eqb c dquote then
            match read_string rest with
            | Some (str, rest') => Some (VStr str, rest')
            | None => None
            end
          else if Ascii.eqb c "[" then
            match skip_ws rest with
            | EmptyString => None
            | String c' rest' =>
                if Ascii.eqb c' "]" then Some (VArr [], rest')
                else
                  match read_items fuel' rest with
                  | Some (items, rest'') => Some (VArr items, rest'')
                  | None => None
                  end
            end
          else if Ascii.eqb c "n" then literal "ull" VNull rest
          else if Ascii.eqb c "t" then literal "rue" (VBool true) rest
          else if Ascii.eqb c "f" then literal "alse" (VBool false) rest
          else None
      end
  end

with read_items (fuel : nat) (s : string) : option (list value * string) :=
  match fuel with
  | O => None
  | S fuel' =>
      match read_value fuel' s with
      | None => None
      | Some (v, rest) =>
          match skip_ws rest with
          | EmptyString => None
          | String c rest' =>
              if Ascii.eqb c "," then
                match read_items fuel' rest' with
                | Some (vs, rest'') => Some (v :: vs, rest'')
                | None => None
                end
              else if Ascii.eqb c "]" then Some ([v], rest')
              else None
          end
      end
  end.

(** [JSON.parse(text)]: the whole text is one value. *)
Definition parse (text : string) : outcome value :=
  match read_value (S (String.length text)) text with
  | Some (v, rest) =>
      match skip_ws rest with
      | EmptyString => Returns v
      | String _ _ => Throws (SyntaxError "Unexpected token in JSON")
      end
  | None => Throws (SyntaxError "Unexpected token in JSON")
  end.

End Json.

(* ================================================================== *)
(** * The normalized record *)
(* ================================================================== *)

Module Booking.
Import JS.

Record Preferences : Type := { dates : value; windows : value }.

Record Customer : Type :=
  { name : string; phone : string; email : option string }.

Record Address : Type :=
  { line1 : string; line2 : option string; city : string;
    state : string; zip : string }.

Record Cleaned : Type :=
  { preferences : Preferences; customer : Customer; address : Address;
    notes : option string }.

Record Validation : Type := { errors : list string; cleaned : Cleaned }.

(** [errors.push(msg)] *)
Definition push (errors : list string) (msg : string) : list string :=
  errors ++ [msg].

(** [v.length] of an array. *)
Definition array_length (v : value) : nat :=
  match v with VArr items => length items | _ => 0 end.

(** [(v || "").trim()] *)
Definition trimmed (v : value) : outcome string :=
  call_trim (or_else v (VStr "")).

(** [new Set(["morning", "afternoon", "evening"])] and its [has], which
    compares without coercion. *)
Definition allowedWindows : list string := ["morning"; "afternoon"; "evening"].

Definition set_has (set : list string) (w : value) : bool :=
  match w with
  | VStr s => existsb (String.eqb s) set
  | _ => false
  end.

(** [if (c) errors.push(msg)] *)
Definition push_if (c : bool) (errors : list string) (msg : string) : list string :=
  if c then push errors msg else errors.

(** [for (const x of items) body], the body working on a state and
    free to throw. *)
Fixpoint for_of {A S : Type} (items : list A) (body : S -> A -> outcome S) (s : S)
  : outcome S :=
  match items with
  | [] => Returns s
  | x :: rest => s' <- body s x ;; for_of rest body s'
  end.

(** [if (Array.isArray(dates))
       for (const d of dates)
         if (!isValidISODate(d)) errors.push(`Invalid date: ${d}`)] *)
Definition check_dates (errors : list string) (dates : value)
  : outcome (list string) :=
  match dates with
  | VArr items =>
      for_of items
        (fun errors d =>
           ok <- Helpers.isValidISODate d ;;
           if negb ok
           then t <- ToString d ;; Returns (push errors ("Invalid date: " ++ t))
           else Returns errors)
        errors
  | _ => Returns errors
  end.

(** [if (Array.isArray(windows))
       for (const w of windows)
         if (!allowedWindows.has(w)) errors.push(`Invalid window: ${w}`)] *)
Definition check_windows (errors : list string) (windows : value)
  : outcome (list string) :=
  match windows with
  | VArr items =>
      for_of items
        (fun errors w =>
           if negb (set_has allowedWindows w)
           then t <- ToString w ;; Returns (push errors ("Invalid window: " ++ t))
           else Returns errors)
        errors
  | _ => Returns errors
  end.

End Booking.

(* ================================================================== *)
(** * Requests and responses *)
(* ================================================================== *)

Module Http.
Import JS.

(** What a route reads of [req]: the (lower-cased) headers, the parsed
    query string, the [:id] route parameter and the parsed JSON body. *)
Record Request : Type :=
  { headers : list (string * string);
    query : value;
    params_id : string;
    body : value }.

(** [req.headers[name]]: undefined when the header was not sent. *)
Fixpoint header (hs : list (string * string)) (name : string) : option string :=
  match hs with
  | [] => None
  | (k, v) :: rest => if String.eqb name k then Some v else header rest name
  end.

(** The JSON bodies the routes send; [Row] is what a listing returns. *)
Inductive Body (Row : Type) : Type :=
| OkBody                                (* { ok: true } *)
| RequestIdBody (request_id : Z)        (* { ok: true, request_id } *)
| RequestsBody (requests : list Row)    (* { ok: true, requests } *)
| ErrorsBody (errors : list string)     (* { ok: false, errors } *)
| ErrorBody (error : string).           (* { ok: false, error } *)
Arguments OkBody {Row}.
Arguments RequestIdBody {Row} request_id.
Arguments RequestsBody {Row} requests.
Arguments ErrorsBody {Row} errors.
Arguments ErrorBody {Row} error.

Record Response (Row : Type) : Type :=
  { status_code : nat; payload : Body Row }.
Arguments status_code {Row} r.
Arguments payload {Row} r.

(** [res.json(b)] and [res.status(n).json(b)]. *)
Definition json {Row : Type} (b : Body Row) : Response Row :=
  {| status_code := 200; payload := b |}.

Definition status_json {Row : Type} (n : nat) (b : Body Row) : Response Row :=
  {| status_code := n; payload := b |}.

(** [process.env]. *)
Record Env : Type := { ADMIN_KEY : option string }.

(** [err.message || fallback] *)
Definition message_or (e : exn) (fallback : string) : string :=
  let m := match e with TypeError m | SyntaxError m | StoreError m => m end in
  if m =? "" then fallback else m.

End Http.

(* ================================================================== *)
(** * Statements shared by the two stores *)
(* ================================================================== *)

Module Sql.

Section OrderBy.
Context {Row : Type} (key : Row -> Z).

(** ORDER BY key DESC, by insertion into a list already in descending
    order.  SQL leaves the order of rows with equal keys to the store; a
    row is inserted before the rows of the same key, so that such rows
    come out in the order of the table. *)
Fixpoint insert_desc (r : Row) (sorted : list Row) : list Row :=
  match sorted with
  | [] => [r]
  | x :: rest =>
      if (key x <=? key r)%Z then r :: x :: rest
      else x :: insert_desc r rest
  end.

Definition order_by_desc (rs : list Row) : list Row :=
  fold_right insert_desc [] rs.

End OrderBy.

End Sql.

(* ================================================================== *)
(** * The Postgres table behind server/server.js *)
(* ================================================================== *)

Module Pg.
Import JS.

(** A row of booking_requests; the two jsonb columns are kept as the
    JSON text they were written from. *)
Record Row : Type :=
  { id : Z;
    created_at : Z;
    preferred_dates : string;
    preferred_windows : string;
    name : string;
    phone : string;
    email : option string;
    line1 : string;
    line2 : option string;
    city : string;
    state : string;
    zip : string;
    notes : option string;
    status : string }.

(** The store behind the pool.  The table declaration is not part of the
    repository, so how the [id] column reads the text parameter of a
    statement is a component of the store: [read_id] gives the key, or
    nothing when the column's input function rejects the text.  [fault]
    is the error every statement is rejected with while the store
    cannot be reached. *)
Record Store : Type :=
  { rows : list Row;
    read_id : string -> option Z;
    fault : option string }.

Definition set_status (r : Row) (s : string) : Row :=
  {| id := id r; created_at := created_at r;
     preferred_dates := preferred_dates r;
     preferred_windows := preferred_windows r;
     name := name r; phone := phone r; email := email r;
     line1 := line1 r; line2 := line2 r; city := city r;
     state := state r; zip := zip r; notes := notes r;
     status := s |}.

Definition set_rows (db : Store) (rs : list Row) : Store :=
  {| rows := rs; read_id := read_id db; fault := fault db |}.

(** SELECT * FROM booking_requests WHERE status = $1
    ORDER BY created_at DESC LIMIT 500 *)
Definition select_by_status (db : Store) (st : string) : outcome (list Row) :=
  match fault db with
  | Some msg => Throws (StoreError msg)
  | None =>
      Returns
        (firstn 500
           (Sql.order_by_desc created_at
              (filter (fun r => String.eqb (status r) st) (rows db))))
  end.

(** UPDATE booking_requests SET status = $1 WHERE id = $2 RETURNING id:
    the result carries [rowCount], the number of rows returned. *)
Definition update_status (db : Store) (st : string) (id_text : string)
  : outcome (nat * Store) :=
  match fault db with
  | Some msg => Throws (StoreError msg)
  | None =>
      match read_id db id_text with
      | None => Throws (StoreError "invalid input syntax for the id column")
      | Some key =>
          let hit := fun r => (id r =? key)%Z in
          Returns
            (length (filter hit (rows db)),
             set_rows db
               (map (fun r => if hit r then set_status r st else r) (rows db)))
      end
  end.

End Pg.

(* ================================================================== *)
(** * server/server.js *)
(* ================================================================== *)

Module Server.
Import JS Helpers Booking.

Definition validateBooking (body : value) : outcome Validation :=
  let errors : list string := [] in
  let dates := opt_get (opt_get body "preferences") "dates" in
  let windows := opt_get (opt_get body "preferences") "windows" in
  let errors :=
    push_if (negb (is_array dates) || (array_length dates <? 1)%nat) errors
      "Select at least 1 preferred day." in
  let errors :=
    push_if (negb (is_array windows) || (array_length windows <? 1)%nat) errors
      "Select at least 1 time window." in
  errors <- check_dates errors dates ;;
  errors <- check_windows errors windows ;;
  name <- trimmed (opt_get (opt_get body "customer") "name") ;;
  phone <-
    normalizePhone (or_else (opt_get (opt_get body "customer") "phone") (VStr "")) ;;
  email <- trimmed (opt_get (opt_get body "customer") "email") ;;
  let email := or_null email in
  line1 <- trimmed (opt_get (opt_get body "address") "line1") ;;
  line2 <- trimmed (opt_get (opt_get body "address") "line2") ;;
  let line2 := or_null line2 in
  city <- trimmed (opt_get (opt_get body "address") "city") ;;
  state <- trimmed (opt_get (opt_get body "address") "state") ;;
  let state := if state =? "" then "UT" else state in
  zip <- trimmed (opt_get (opt_get body "address") "zip") ;;
  notes <- trimmed (opt_get body "notes") ;;
  let notes := or_null notes in
  let errors := push_if (name =? "") errors "Name is required." in
  let errors := push_if (phone =? "") errors "Phone is required." in
  let errors := push_if (line1 =? "") errors "Street address is required." in
  let errors := push_if (city =? "") errors "City is required." in
  let errors := push_if (zip =? "") errors "ZIP is required." in
  Returns
    {| errors := errors;
       cleaned :=
         {| preferences :=
              {| dates := or_else dates (VArr []);
                 windows := or_else windows (VArr []) |};
            customer := {| name := name; phone := phone; email := email |};
            address :=
              {| line1 := line1; line2 := line2; city := city;
                 state := state; zip := zip |};
            notes := notes |} |}.

(** The routes thread the store: a handler maps the request and the
    store to the response it sends, or the error it throws before it
    sends one, and the store it leaves.  What the client gets after an
    error thrown out of a handler is up to the framework. *)
Definition Handler : Type :=
  Http.Request -> Pg.Store -> outcome (Http.Response Pg.Row) * Pg.Store.

(** [!process.env.ADMIN_KEY]: unset, or set to the empty string. *)
Definition falsy_key (k : option string) : bool :=
  match k with
  | None => true
  | Some s => s =? ""
  end.

(** [a === b] on values that are a string or undefined. *)
Definition strict_eq (a b : option string) : bool :=
  match a, b with
  | None, None => true
  | Some x, Some y => String.eqb x y
  | _, _ => false
  end.

Definition requireAdmin (env : Http.Env) (next : Handler) : Handler :=
  fun req db =>
    let key := Http.header (Http.headers req) "x-admin-key" in
    if falsy_key (Http.ADMIN_KEY env) || negb (strict_eq key (Http.ADMIN_KEY env))
    then (Returns (Http.status_json 401 (Http.ErrorBody "Unauthorized")), db)
    else next req db.

(** The handler of GET /api/admin/requests.  The status is coerced and
    trimmed before the try block. *)
Definition list_requests : Handler :=
  fun req db =>
    match ToString (or_else (opt_get (Http.query req) "status") (VStr "requested")) with
    | Throws e => (Throws e, db)
    | Returns s =>
        let status := trim s in
        match Pg.select_by_status db status with
        | Returns rows => (Returns (Http.json (Http.RequestsBody rows)), db)
        | Throws err =>
            (Returns
               (Http.status_json 500
                  (Http.ErrorBody (Http.message_or err "Database read failed"))),
             db)
        end
    end.

Definition allowed : list string := ["requested"; "scheduled"; "cancelled"].

(** The handler of PATCH /api/admin/requests/:id.  The status is
    coerced and trimmed before the try block. *)
Definition update_request : Handler :=
  fun req db =>
    let id := Http.params_id req in
    match ToString (or_else (opt_get (Http.body req) "status") (VStr "")) with
    | Throws e => (Throws e, db)
    | Returns s =>
        let status := trim s in
        if negb (set_has allowed (VStr status))
        then
          (Returns
             (Http.status_json 400
                (Http.ErrorBody
                   "Invalid status. Use: requested | scheduled | cancelled")),
           db)
        else
          match Pg.update_status db status id with
          | Returns (rowCount, db') =>
              if (rowCount =? 0)%nat
              then (Returns (Http.status_json 404 (Http.ErrorBody "Not found")), db')
              else (Returns (Http.json Http.OkBody), db')
          | Throws err =>
              (Returns
                 (Http.status_json 500
                    (Http.ErrorBody (Http.message_or err "Database update failed"))),
               db)
          end
    end.

(** app.get("/api/admin/requests", requireAdmin, ...) and
    app.patch("/api/admin/requests/:id", requireAdmin, ...) *)
Definition get_admin_requests (env : Http.Env) : Handler :=
  requireAdmin env list_requests.

Definition patch_admin_request (env : Http.Env) : Handler :=
  requireAdmin env update_request.

(** The eleven parameters of the INSERT, in order; an absent value is
    sent as NULL. *)
Definition insert_params (c : Cleaned) : list (option string) :=
  [ Json.stringify (dates (preferences c));
    Json.stringify (windows (preferences c));
    Some (name (customer c));
    Some (phone (customer c));
    email (customer c);
    Some (line1 (address c));
    line2 (address c);
    Some (city (address c));
    Some (state (address c));
    Some (zip (address c));
    notes c ].

Section Insert.

(** INSERT INTO booking_requests (...) VALUES ($1::jsonb, ..., $11)
    RETURNING id.  The table declaration of the Postgres store is not
    part of the repository, so the statement is taken as it comes: from
    the store and the eleven parameters it gives the new key and the
    store it leaves, or it is rejected. *)
Variable insert : Pg.Store -> list (option string) -> outcome (Z * Pg.Store).

(** The handler of POST /api/booking-request.  The validator runs
    outside the try block: what it throws is thrown out of the
    handler. *)
Definition post_booking_request : Handler :=
  fun req db =>
  match validateBooking (Http.body req) with
  | Throws e => (Throws e, db)
  | Returns v =>
      if negb (length (errors v) =? 0)%nat
      then (Returns (Http.status_json 400 (Http.ErrorsBody (errors v))), db)
      else
        match insert db (insert_params (cleaned v)) with
        | Returns (new_id, db') =>
            (Returns (Http.json (Http.RequestIdBody new_id)), db')
        | Throws err =>
            (Returns
               (Http.status_json 500
                  (Http.ErrorBody (Http.message_or err "Database insert failed"))),
             db)
        end
  end.

End Insert.

End Server.

(* ================================================================== *)
(** * The SQLite table of server/db.js *)
(* ================================================================== *)

Module Sqlite.
Import JS.

Record Row : Type :=
  { id : Z;
    created_at : Z;
    preferred_dates_json : string;
    preferred_windows_json : string;
    name : string;
    phone : string;
    email : option string;
    line1 : string;
    line2 : option string;
    city : string;
    state : string;
    zip : string;
    notes : option string;
    status : string }.

(** The table, the next AUTOINCREMENT key, the time [datetime('now')]
    gives, and the error the driver reports while the file cannot be
    used. *)
Record Store : Type :=
  { rows : list Row;
    next_id : Z;
    now : Z;
    fault : option string }.

(** INSERT INTO booking_requests (preferred_dates_json, ..., notes)
    VALUES (?, ..., ?): [id], [created_at] and [status] take their
    defaults; an undefined parameter is bound as NULL, which the two
    NOT NULL json columns refuse.  The result is [this.lastID]. *)
Definition insert (db : Store)
    (dates_json windows_json : option string)
    (name phone : string) (email : option string)
    (line1 : string) (line2 : option string) (city state zip : string)
    (notes : option string) : outcome (Z * Store) :=
  match fault db with
  | Some msg => Throws (StoreError msg)
  | None =>
      match dates_json, windows_json with
      | Some dj, Some wj =>
          let r :=
            {| id := next_id db; created_at := now db;
               preferred_dates_json := dj; preferred_windows_json := wj;
               name := name; phone := phone; email := email;
               line1 := line1; line2 := line2; city := city;
               state := state; zip := zip; notes := notes;
               status := "requested" |} in
          Returns
            (next_id db,
             {| rows := rows db ++ [r]; next_id := (next_id db + 1)%Z;
                now := now db; fault := fault db |})
      | _, _ => Throws (StoreError "NOT NULL constraint failed")
      end
  end.

(** SELECT * FROM booking_requests WHERE status = ?
    ORDER BY datetime(created_at) DESC LIMIT 500 *)
Definition select_by_status (db : Store) (st : string) : outcome (list Row) :=
  match fault db with
  | Some msg => Throws (StoreError msg)
  | None =>
      Returns
        (firstn 500
           (Sql.order_by_desc created_at
              (filter (fun r => String.eqb (status r) st) (rows db))))
  end.

End Sqlite.

(* ================================================================== *)
(** * The file-based server *)
(* ================================================================== *)

Module FileServer.
Import JS Helpers Booking.

Definition validate (body : value) : outcome Validation :=
  let errors : list string := [] in
  let dates := opt_get (opt_get body "preferences") "dates" in
  let windows := opt_get (opt_get body "preferences") "windows" in
  let errors :=
    push_if (negb (is_array dates) || (array_length dates <? 1)%nat) errors
      "Select at least 1 day." in
  let errors :=
    push_if (negb (is_array windows) || (array_length windows <? 1)%nat) errors
      "Select at least 1 time window." in
  errors <- check_dates errors dates ;;
  errors <- check_windows errors windows ;;
  name <- trimmed (opt_get (opt_get body "customer") "name") ;;
  phone <-
    normalizePhone (or_else (opt_get (opt_get body "customer") "phone") (VStr "")) ;;
  email <- trimmed (opt_get (opt_get body "customer") "email") ;;
  let email := or_null email in
  line1 <- trimmed (opt_get (opt_get body "address") "line1") ;;
  line2 <- trimmed (opt_get (opt_get body "address") "line2") ;;
  let line2 := or_null line2 in
  city <- trimmed (opt_get (opt_get body "address") "city") ;;
  state <- trimmed (opt_get (opt_get body "address") "state") ;;
  zip <- trimmed (opt_get (opt_get body "address") "zip") ;;
  notes <- trimmed (opt_get body "notes") ;;
  let notes := or_null notes in
  let errors := push_if (name =? "") errors "Name is required." in
  let errors := push_if (phone =? "") errors "Phone is required." in
  let errors := push_if (line1 =? "") errors "Street address is required." in
  let errors := push_if (city =? "") errors "City is required." in
  let errors := push_if (state =? "") errors "State is required." in
  let errors := push_if (zip =? "") errors "ZIP is required." in
  Returns
    {| errors := errors;
       cleaned :=
         {| preferences := {| dates := dates; windows := windows |};
            customer := {| name := name; phone := phone; email := email |};
            address :=
              {| line1 := line1; line2 := line2; city := city;
                 state := state; zip := zip |};
            notes := notes |} |}.

(** What the listing sends for a row: the row itself with the two
    sequences read back from their JSON text. *)
Record Listed : Type :=
  { row : Sqlite.Row;
    preferred_dates : value;
    preferred_windows : value }.

(** A route of this server can also end in an error thrown out of the
    handler before it has sent a response. *)
Definition Handler : Type :=
  Http.Request -> Sqlite.Store -> outcome (Http.Response Listed) * Sqlite.Store.

(** The handler of POST /api/booking-request. *)
Definition post_booking_request : Handler :=
  fun req db =>
    match validate (Http.body req) with
    | Throws e => (Throws e, db)
    | Returns v =>
        if negb (length (errors v) =? 0)%nat
        then (Returns (Http.status_json 400 (Http.ErrorsBody (errors v))), db)
        else
          let c := cleaned v in
          match
            Sqlite.insert db
              (Json.stringify (dates (preferences c)))
              (Json.stringify (windows (preferences c)))
              (name (customer c)) (phone (customer c)) (email (customer c))
              (line1 (address c)) (line2 (address c)) (city (address c))
              (state (address c)) (zip (address c))
              (notes c)
          with
          | Throws _ =>
              (Returns
                 (Http.status_json 500 (Http.ErrorBody "Database insert failed.")),
               db)
          | Returns (lastID, db') =>
              (Returns (Http.json (Http.RequestIdBody lastID)), db')
          end
    end.

(** [r => ({ ...r, preferred_dates: JSON.parse(r.preferred_dates_json),
                  preferred_windows: JSON.parse(r.preferred_windows_json) })] *)
Definition listed (r : Sqlite.Row) : outcome Listed :=
  d <- Json.parse (Sqlite.preferred_dates_json r) ;;
  w <- Json.parse (Sqlite.preferred_windows_json r) ;;
  Returns {| row := r; preferred_dates := d; preferred_windows := w |}.

(** [rows.map(f)] for an [f] that can throw. *)
Fixpoint map_rows {A B : Type} (f : A -> outcome B) (l : list A) : outcome (list B) :=
  match l with
  | [] => Returns []
  | x :: rest =>
      y <- f x ;;
      ys <- map_rows f rest ;;
      Returns (y :: ys)
  end.

(** The handler of GET /api/admin/requests: registered without a guard. *)
Definition get_admin_requests : Handler :=
  fun req db =>
    match call_trim (or_else (opt_get (Http.query req) "status") (VStr "requested")) with
    | Throws e => (Throws e, db)
    | Returns status =>
        match Sqlite.select_by_status db status with
        | Throws _ =>
            (Returns
               (Http.status_json 500 (Http.ErrorBody "Database read failed.")),
             db)
        | Returns rows =>
            match map_rows listed rows with
            | Throws e => (Throws e, db)
            | Returns out => (Returns (Http.json (Http.RequestsBody out)), db)
            end
        end
    end.

End FileServer.

(* ================================================================== *)
(** * The earlier Postgres server *)
(* ================================================================== *)

Module PgDraft.
Import JS Helpers Booking.

Definition validate (body : value) : outcome Validation :=
  let errors : list string := [] in
  let dates := opt_get (opt_get body "preferences") "dates" in
  let windows := opt_get (opt_get body "preferences") "windows" in
  let errors :=
    push_if (negb (is_array dates) || (array_length dates <? 1)%nat) errors
      "Select at least 1 preferred day." in
  let errors :=
    push_if (negb (is_array windows) || (array_length windows <? 1)%nat) errors
      "Select at least 1 time window." in
  errors <- check_dates errors dates ;;
  errors <- check_windows errors windows ;;
  name <- trimmed (opt_get (opt_get body "customer") "name") ;;
  phone <-
    normalizePhone (or_else (opt_get (opt_get body "customer") "phone") (VStr "")) ;;
  email <- trimmed (opt_get (opt_get body "customer") "email") ;;
  let email := or_null email in
  line1 <- trimmed (opt_get (opt_get body "address") "line1") ;;
  line2 <- trimmed (opt_get (opt_get body "address") "line2") ;;
  let line2 := or_null line2 in
  city <- trimmed (opt_get (opt_get body "address") "city") ;;
  state <- trimmed (opt_get (opt_get body "address") "state") ;;
  let state := if state =? "" then "UT" else state in
  zip <- trimmed (opt_get (opt_get body "address") "zip") ;;
  notes <- trimmed (opt_get body "notes") ;;
  let notes := or_null notes in
  let errors := push_if (name =? "") errors "Name is required." in
  let errors := push_if (phone =? "") errors "Phone is required." in
  let errors := push_if (line1 =? "") errors "Street address is required." in
  let errors := push_if (city =? "") errors "City is required." in
  let errors := push_if (zip =? "") errors "ZIP is required." in
  Returns
    {| errors := errors;
       cleaned :=
         {| preferences := {| dates := dates; windows := windows |};
            customer := {| name := name; phone := phone; email := email |};
            address :=
              {| line1 := line1; line2 := line2; city := city;
                 state := state; zip := zip |};
            notes := notes |} |}.

(** A route of this server can end in an error thrown out of its
    handler. *)
Definition Handler : Type :=
  Http.Request -> Pg.Store -> outcome (Http.Response Pg.Row) * Pg.Store.

Definition requireAdmin (env : Http.Env) (next : Handler) : Handler :=
  fun req db =>
    let key := Http.header (Http.headers req) "x-admin-key" in
    if Server.falsy_key (Http.ADMIN_KEY env)
       || negb (Server.strict_eq key (Http.ADMIN_KEY env))
    then (Returns (Http.status_json 401 (Http.ErrorBody "Unauthorized")), db)
    else next req db.

(** The handler of GET /api/admin/requests: the status is trimmed as it
    comes, without coercion, before the try block. *)
Definition list_requests : Handler :=
  fun req db =>
    match call_trim (or_else (opt_get (Http.query req) "status") (VStr "requested")) with
    | Throws e => (Throws e, db)
    | Returns status =>
        match Pg.select_by_status db status with
        | Returns rows => (Returns (Http.json (Http.RequestsBody rows)), db)
        | Throws err =>
            (Returns
               (Http.status_json 500
                  (Http.ErrorBody (Http.message_or err "Database read failed"))),
             db)
        end
    end.

Definition get_admin_requests (env : Http.Env) : Handler :=
  requireAdmin env list_requests.

End PgDraft.

(* ================================================================== *)
(** * The rules in the words of the specification *)
(* ================================================================== *)

Module Spec.
Import JS Booking.

(** Digits-only strings, and a string with its non-digits removed. *)
Fixpoint all_digits (s : string) : bool :=
  match s with
  | EmptyString => true
  | String c s' => is_digit c && all_digits s'
  end.

Fixpoint keep_digits (s : string) : string :=
  match s with
  | EmptyString => EmptyString
  | String c s' => if is_digit c then String c (keep_digits s') else keep_digits s'
  end.

(** YYYY-MM-DD: ten characters, digits except for the two dashes. *)
Definition iso_shape (s : string) : bool :=
  match s with
  | String y1 (String y2 (String y3 (String y4 (String h1
      (String m1 (String m2 (String h2 (String d1 (String d2 EmptyString))))))))) =>
      is_digit y1 && is_digit y2 && is_digit y3 && is_digit y4
      && Ascii.eqb h1 "-"
      && is_digit m1 && is_digit m2
      && Ascii.eqb h2 "-"
      && is_digit d1 && is_digit d2
  | _ => false
  end.

(** One rule, one list of messages. *)
Definition sequence_required (v : value) (msg : string) : list string :=
  match v with
  | VArr (_ :: _) => []
  | _ => [msg]
  end.

Definition items_of (v : value) : list value :=
  match v with VArr items => items | _ => [] end.

(** Does the string of the value match the date pattern? *)
Definition date_ok (d : value) : bool :=
  Regex.test_anchored Helpers.iso_date_re (to_string d).

Definition date_format (v : value) : list string :=
  map (fun d => "Invalid date: " ++ to_string d)
      (filter (fun d => negb (date_ok d)) (items_of v)).

Definition window_allowed (v : value) : list string :=
  map (fun w => "Invalid window: " ++ to_string w)
      (filter (fun w => negb (set_has allowedWindows w)) (items_of v)).

Definition required (field msg : string) : list string :=
  if field =? "" then [msg] else [].

(** Every violation of a submission, rule by rule, the text fields as
    the normalized record has them.  The state has no rule. *)
Definition violations (day_msg : string) (body : value) (c : Cleaned) : list string :=
  let dates := opt_get (opt_get body "preferences") "dates" in
  let windows := opt_get (opt_get body "preferences") "windows" in
  sequence_required dates day_msg
  ++ sequence_required windows "Select at least 1 time window."
  ++ date_format dates
  ++ window_allowed windows
  ++ required (name (customer c)) "Name is required."
  ++ required (phone (customer c)) "Phone is required."
  ++ required (line1 (address c)) "Street address is required."
  ++ required (city (address c)) "City is required."
  ++ required (zip (address c)) "ZIP is required.".

(** A text field the validator can trim: absent or otherwise falsy, or
    a string. *)
Definition text_like (v : value) : Prop :=
  truthy v = false \/ exists s, v = VStr s.

Definition text_fields (body : value) : Prop :=
  text_like (opt_get (opt_get body "customer") "name")
  /\ text_like (opt_get (opt_get body "customer") "email")
  /\ text_like (opt_get (opt_get body "address") "line1")
  /\ text_like (opt_get (opt_get body "address") "line2")
  /\ text_like (opt_get (opt_get body "address") "city")
  /\ text_like (opt_get (opt_get body "address") "state")
  /\ text_like (opt_get (opt_get body "address") "zip")
  /\ text_like (opt_get body "notes").

(** What the validator coerces to a string can be coerced: every item
    of the dates and of the windows, when they are arrays, and the
    phone. *)
Definition coercible (body : value) : Prop :=
  Forall (fun d => printable d = true)
    (items_of (opt_get (opt_get body "preferences") "dates"))
  /\ Forall (fun w => printable w = true)
       (items_of (opt_get (opt_get body "preferences") "windows"))
  /\ printable (opt_get (opt_get body "customer") "phone") = true.

(** The caller presents the configured, non-empty secret. *)
Definition authorized (env : Http.Env) (req : Http.Request) : Prop :=
  exists k, Http.ADMIN_KEY env = Some k /\ k <> ""
            /\ Http.header (Http.headers req) "x-admin-key" = Some k.

(** Two rows that agree on every column but the status. *)
Definition same_but_status (r r' : Pg.Row) : Prop :=
  Pg.id r' = Pg.id r
  /\ Pg.created_at r' = Pg.created_at r
  /\ Pg.preferred_dates r' = Pg.preferred_dates r
  /\ Pg.preferred_windows r' = Pg.preferred_windows r
  /\ Pg.name r' = Pg.name r
  /\ Pg.phone r' = Pg.phone r
  /\ Pg.email r' = Pg.email r
  /\ Pg.line1 r' = Pg.line1 r
  /\ Pg.line2 r' = Pg.line2 r
  /\ Pg.city r' = Pg.city r
  /\ Pg.state r' = Pg.state r
  /\ Pg.zip r' = Pg.zip r
  /\ Pg.notes r' = Pg.notes r.


(** Values made of strings, arrays, null and booleans only. *)
Fixpoint plain (v : value) : bool :=
  match v with
  | VNull | VBool _ | VStr _ => true
  | VArr items =>
      (fix all (l : list value) : bool :=
         match l with
         | [] => true
         | x :: rest => plain x && all rest
         end) items
  | VUndefined | VNum _ | VObj _ => false
  end.

(** The text of a value as an item of an array. *)
Definition text (v : value) : string :=
  match Json.stringify v with
  | Some t => t
  | None => "null"
  end.

(** A bound on the steps the reader takes on the text of a value. *)
Fixpoint size (v : value) : nat :=
  match v with
  | VArr items =>
      S ((fix sum (l : list value) : nat :=
            match l with
            | [] => 0
            | x :: rest => S (size x) + sum rest
            end) items)
  | _ => 1
  end.

Fixpoint items_size (l : list value) : nat :=
  match l with
  | [] => 0
  | x :: rest => S (size x) + items_size rest
  end.

(** A text that starts with a character that is neither white space
    nor a closing bracket. *)
Definition opens_value (t : string) : Prop :=
  exists c tl,
    t = String c tl /\ Json.is_json_space c = false /\ Ascii.eqb c "]" = false.

(** Strings of digits and dashes. *)
Fixpoint date_chars (s : string) : bool :=
  match s with
  | EmptyString => true
  | String c s' => (is_digit c || Ascii.eqb c "-") && date_chars s'
  end.

(** A string inside any number of one-item arrays. *)
Inductive wraps : value -> string -> Prop :=
| wraps_string (s : string) : wraps (VStr s) s
| wraps_array (x : value) (s : string) : wraps x s -> wraps (VArr [x]) s.

(** Does the string start, or end, with white space? *)
Definition starts_with_space (s : string) : bool :=
  match s with
  | EmptyString => false
  | String c _ => is_space c
  end.

Fixpoint ends_with_space (s : string) : bool :=
  match s with
  | EmptyString => false
  | String c EmptyString => is_space c
  | String _ s' => ends_with_space s'
  end.

Definition outer_trimmed (s : string) : Prop :=
  starts_with_space s = false /\ ends_with_space s = false.

(** An optional field of the normalized record: absent, or a non-empty
    string with no white space around it. *)
Definition optional_text (o : option string) : Prop :=
  match o with
  | None => True
  | Some s => s <> "" /\ outer_trimmed s
  end.

(** Every row of the Postgres table carries one of the three statuses. *)
Definition statuses_allowed (db : Pg.Store) : Prop :=
  forall r, In r (Pg.rows db) -> In (Pg.status r) Server.allowed.

(** The keys of the SQLite table are distinct and below the next key. *)
Definition keys_in_order (db : Sqlite.Store) : Prop :=
  NoDup (map Sqlite.id (Sqlite.rows db))
  /\ forall r, In r (Sqlite.rows db) -> (Sqlite.id r < Sqlite.next_id db)%Z.

(** A non-empty array. *)
Definition filled_array (v : value) : Prop :=
  exists x l, v = VArr (x :: l).

(** A row as the POST route of the file-based server writes it. *)
Definition posted_row (r : Sqlite.Row) : Prop :=
  Sqlite.status r = "requested"
  /\ Sqlite.name r <> "" /\ Sqlite.line1 r <> "" /\ Sqlite.city r <> ""
  /\ Sqlite.state r <> "" /\ Sqlite.zip r <> ""
  /\ Sqlite.phone r <> "" /\ all_digits (Sqlite.phone r) = true
  /\ exists ds ws,
       FileServer.listed r
       = Returns {| FileServer.row := r;
                    FileServer.preferred_dates := ds;
                    FileServer.preferred_windows := ws |}
       /\ filled_array ds /\ filled_array ws
       /\ Forall (fun d => Helpers.isValidISODate d = Returns true) (items_of ds)
       /\ Forall (fun w => set_has allowedWindows w = true) (items_of ws).

Definition posted_rows (db : Sqlite.Store) : Prop :=
  forall r, In r (Sqlite.rows db) -> posted_row r.

End Spec.

(* ================================================================== *)
(** * Sample requests *)
(* ================================================================== *)

Module Examples.
Import JS.

(** The valid submission of the specification; it names no state. *)
Definition jane : value :=
  VObj [("preferences",
         VObj [("dates", VArr [VStr "2025-03-01"]);
               ("windows", VArr [VStr "morning"])]);
        ("customer",
         VObj [("name", VStr "Jane Doe"); ("phone", VStr "(555) 123-4567")]);
        ("address",
         VObj [("line1", VStr "1 Main St"); ("city", VStr "Provo");
               ("zip", VStr "84601")])].

(** The same with a state of blanks only. *)
Definition jane_blank_state : value :=
  VObj [("preferences",
         VObj [("dates", VArr [VStr "2025-03-01"]);
               ("windows", VArr [VStr "morning"])]);
        ("customer",
         VObj [("name", VStr "Jane Doe"); ("phone", VStr "(555) 123-4567")]);
        ("address",
         VObj [("line1", VStr "1 Main St"); ("city", VStr "Provo");
               ("state", VStr "   "); ("zip", VStr "84601")])].

(** Two dates of the right shape, one of them no day of the calendar,
    and one of another shape. *)
Definition three_dates : value :=
  VObj [("preferences",
         VObj [("dates",
                VArr [VStr "2025-03-01"; VStr "2024-02-31"; VStr "03/01/2025"]);
               ("windows", VArr [VStr "evening"])]);
        ("customer", VObj [("name", VStr "Al"); ("phone", VStr "801 555 0100")]);
        ("address",
         VObj [("line1", VStr "2 Elm"); ("city", VStr "Orem");
               ("zip", VStr "84057")])].

(** Four rules broken at once. *)
Definition four_violations : value :=
  VObj [("preferences",
         VObj [("dates", VArr []); ("windows", VArr [VStr "noon"])]);
        ("customer", VObj [("name", VStr "  "); ("phone", VStr "n/a")]);
        ("address",
         VObj [("line1", VStr "2 Elm"); ("city", VStr "Orem");
               ("zip", VStr "84057")])].

(** Two windows sent as numbers. *)
Definition odd_windows : value :=
  VObj [("preferences",
         VObj [("dates", VArr [VStr "2025-03-01"]);
               ("windows",
                VArr [VStr "evening"; VNum (Finite false 1 21);
                      VNum (Finite false 15 (-1))])]);
        ("customer", VObj [("name", VStr "Al"); ("phone", VStr "801 555 0100")]);
        ("address",
         VObj [("line1", VStr "2 Elm"); ("city", VStr "Orem");
               ("zip", VStr "84057")])].

(** The same rules broken, the name sent as a number. *)
Definition numeric_name : value :=
  VObj [("preferences",
         VObj [("dates", VArr []); ("windows", VArr [VStr "noon"])]);
        ("customer", VObj [("name", VNum (int 42)); ("phone", VStr "n/a")]);
        ("address",
         VObj [("line1", VStr "2 Elm"); ("city", VStr "Orem");
               ("zip", VStr "84057")])].

(** A table of three requests behind a store that reads its keys in
    decimal. *)
Fixpoint digits_value (acc : Z) (s : string) : option Z :=
  match s with
  | EmptyString => Some acc
  | String c s' =>
      if is_digit c
      then digits_value (10 * acc + (Z.of_N (N_of_ascii c) - 48)) s'
      else None
  end.

Definition read_decimal (s : string) : option Z :=
  match s with
  | EmptyString => None
  | String _ _ => digits_value 0 s
  end.

Definition request_row (i t : Z) (who st : string) : Pg.Row :=
  {| Pg.id := i; Pg.created_at := t;
     Pg.preferred_dates := "[" ++ String Json.dquote "2025-03-01" ++ String Json.dquote "]";
     Pg.preferred_windows := "[" ++ String Json.dquote "morning" ++ String Json.dquote "]";
     Pg.name := who; Pg.phone := "5551234567"; Pg.email := None;
     Pg.line1 := "1 Main St"; Pg.line2 := None; Pg.city := "Provo";
     Pg.state := "UT"; Pg.zip := "84601"; Pg.notes := None;
     Pg.status := st |}.

Definition three_rows : Pg.Store :=
  {| Pg.rows :=
       [request_row 1 100 "Ann" "requested";
        request_row 2 200 "Bob" "scheduled";
        request_row 3 300 "Cy" "requested"];
     Pg.read_id := read_decimal;
     Pg.fault := None |}.

Definition unreachable : Pg.Store :=
  {| Pg.rows := Pg.rows three_rows;
     Pg.read_id := read_decimal;
     Pg.fault := Some "connect ECONNREFUSED" |}.

Definition secret : Http.Env := {| Http.ADMIN_KEY := Some "s3cret" |}.
Definition empty_secret : Http.Env := {| Http.ADMIN_KEY := Some "" |}.
Definition no_secret : Http.Env := {| Http.ADMIN_KEY := None |}.

(** A request of an administrator who presents [key]. *)
Definition admin_request (key : string) (q : value) (i : string) (b : value)
  : Http.Request :=
  {| Http.headers := [("x-admin-key", key)];
     Http.query := q; Http.params_id := i; Http.body := b |}.

(** A request with no key at all. *)
Definition anonymous_request (q : value) : Http.Request :=
  {| Http.headers := []; Http.query := q; Http.params_id := "";
     Http.body := VUndefined |}.

(** The file-based store after one accepted submission. *)
Definition jane_of_utah : value :=
  VObj [("preferences",
         VObj [("dates", VArr [VStr "2025-03-01"]);
               ("windows", VArr [VStr "morning"])]);
        ("customer",
         VObj [("name", VStr "Jane Doe"); ("phone", VStr "(555) 123-4567")]);
        ("address",
         VObj [("line1", VStr "1 Main St"); ("city", VStr "Provo");
               ("state", VStr "UT"); ("zip", VStr "84601")])].

Definition submission (b : value) : Http.Request :=
  {| Http.headers := []; Http.query := VObj []; Http.params_id := "";
     Http.body := b |}.

Definition empty_file : Sqlite.Store :=
  {| Sqlite.rows := []; Sqlite.next_id := 1; Sqlite.now := 1000;
     Sqlite.fault := None |}.

Definition after_jane : Sqlite.Store :=
  snd (FileServer.post_booking_request (submission jane_of_utah) empty_file).

End Examples.

(* ================================================================== *)
(** * Strings and patterns *)
(* ================================================================== *)

Section StringFacts.
Import JS Regex Helpers.

Lemma string_eqb_empty (s : string) : (s =? "") = true <-> s = "".
Proof. apply String.eqb_eq. Qed.

Lemma append_empty_r (s : string) : s ++ "" = s.
Proof. induction s; simpl; congruence. Qed.

Lemma append_assoc (a b c : string) : (a ++ b) ++ c = a ++ b ++ c.
Proof. induction a; simpl; congruence. Qed.

Lemma append_inj_l (p a b : string) : p ++ a = p ++ b -> a = b.
Proof. induction p; simpl; intros H; [assumption | injection H; auto]. Qed.

Lemma replace_nondigit_keep (s : string) :
  replace_class NonDigit "" s = Spec.keep_digits s.
Proof.
  induction s as [|c s IH]; simpl; [reflexivity|].
  destruct (is_digit c); simpl; rewrite IH; reflexivity.
Qed.

Lemma keep_digits_all_digits (s : string) :
  Spec.all_digits (Spec.keep_digits s) = true.
Proof.
  induction s as [|c s IH]; simpl; [reflexivity|].
  destruct (is_digit c) eqn:E; simpl; [rewrite E|]; assumption.
Qed.

Lemma keep_digits_fixed (s : string) :
  Spec.all_digits s = true -> Spec.keep_digits s = s.
Proof.
  induction s as [|c s IH]; simpl; [reflexivity|].
  intros H. apply andb_true_iff in H. destruct H as [Hc Hs].
  rewrite Hc, (IH Hs). reflexivity.
Qed.

Lemma or_else_str (s : string) : to_string (or_else (VStr s) (VStr "")) = s.
Proof. destruct s; reflexivity. Qed.

(** String coercion returns exactly on the values that can be turned
    into a string, and throws a TypeError on every other value. *)
Lemma ToString_returns (v : value) (s : string) :
  ToString v = Returns s <-> printable v = true /\ s = to_string v.
Proof.
  unfold ToString. destruct (printable v); split.
  - now intros [= <-].
  - now intros [_ ->].
  - discriminate.
  - now intros [? _].
Qed.

Lemma ToString_throws (v : value) (e : exn) :
  ToString v = Throws e <->
  printable v = false /\ e = TypeError "Cannot convert object to primitive value".
Proof.
  unfold ToString. destruct (printable v); split.
  - discriminate.
  - now intros [? _].
  - now intros [= <-].
  - now intros [_ ->].
Qed.

Lemma ToString_printable (v : value) :
  printable v = true -> ToString v = Returns (to_string v).
Proof. unfold ToString. now intros ->. Qed.

Lemma printable_or_else (a b : value) :
  printable a = true -> printable b = true -> printable (or_else a b) = true.
Proof. unfold or_else. now destruct (truthy a). Qed.

Lemma printable_array (items : list value) :
  printable (VArr items) = true <-> Forall (fun x => printable x = true) items.
Proof.
  simpl. induction items as [|x l IH]; simpl.
  - split; [constructor | reflexivity].
  - rewrite andb_true_iff, IH. split.
    + intros [Hx Hl]. now constructor.
    + intros H. inversion H; subst. now split.
Qed.

Lemma normalizePhone_str (s : string) :
  normalizePhone (VStr s) = Returns (Spec.keep_digits s).
Proof.
  unfold normalizePhone. rewrite ToString_printable by (now destruct s).
  cbn [bind]. now rewrite or_else_str, replace_nondigit_keep.
Qed.

Lemma normalizePhone_returns (x : value) (p : string) :
  normalizePhone x = Returns p <->
  printable (or_else x (VStr "")) = true
  /\ p = Spec.keep_digits (to_string (or_else x (VStr ""))).
Proof.
  unfold normalizePhone, ToString.
  destruct (printable (or_else x (VStr ""))); cbn [bind];
    rewrite ?replace_nondigit_keep; split.
  - now intros [= <-].
  - now intros [_ ->].
  - discriminate.
  - now intros [? _].
Qed.

Lemma isValidISODate_returns (d : value) (b : bool) :
  isValidISODate d = Returns b <-> printable d = true /\ b = Spec.date_ok d.
Proof.
  unfold isValidISODate, ToString, Spec.date_ok.
  destruct (printable d); cbn [bind]; split.
  - now intros [= <-].
  - now intros [_ ->].
  - discriminate.
  - now intros [? _].
Qed.

Lemma isValidISODate_string (s : string) :
  isValidISODate (VStr s) = Returns (test_anchored iso_date_re s).
Proof. reflexivity. Qed.

(** The pattern read off the matcher. *)
Lemma iso_date_re_shape (s : string) :
  test_anchored iso_date_re s = Spec.iso_shape s.
Proof.
  unfold test_anchored, iso_date_re.
  do 10 (destruct s as [|? s];
         [simpl; repeat (rewrite ?andb_false_r; simpl); reflexivity|]).
  destruct s; simpl; rewrite ?andb_true_r, ?andb_false_r, ?andb_assoc; reflexivity.
Qed.

End StringFacts.

(* ================================================================== *)
(** * The validators collect every violation *)
(* ================================================================== *)

Import JS Helpers Booking.

Lemma bind_returns {A B : Type} (m : outcome A) (k : A -> outcome B) (b : B) :
  bind m k = Returns b -> exists a, m = Returns a /\ k a = Returns b.
Proof. destruct m as [a|e]; simpl; [now exists a | discriminate]. Qed.

Lemma Returns_inj {A : Type} (a b : A) : Returns a = Returns b -> a = b.
Proof. now intros [= ->]. Qed.

(** The loop over the dates returns when every date can be coerced, and
    then with one message for each date that does not match. *)
Lemma check_dates_items (items : list value) (errs : list string) :
  Forall (fun d => printable d = true) items ->
  check_dates errs (VArr items)
  = Returns (errs ++ Spec.date_format (VArr items))%list.
Proof.
  unfold check_dates, Spec.date_format. cbn [Spec.items_of].
  intros Hall. revert errs.
  induction Hall as [|d items Hd _ IH]; intros errs; cbn [for_of filter map].
  - now rewrite app_nil_r.
  - rewrite (proj2 (isValidISODate_returns d _) (conj Hd eq_refl)). cbn [bind].
    destruct (Spec.date_ok d); cbn [negb bind map].
    + apply IH.
    + rewrite (ToString_printable d Hd). cbn [bind]. rewrite IH.
      unfold push. now rewrite <- app_assoc.
Qed.

Lemma check_dates_returns (errs out : list string) (v : value) :
  check_dates errs v = Returns out ->
  out = (errs ++ Spec.date_format v)%list
  /\ Forall (fun d => printable d = true) (Spec.items_of v).
Proof.
  destruct v as [| | | | |items|];
    try (intros H; apply Returns_inj in H; subst out;
         split; [now rewrite app_nil_r | constructor]).
  cbn [Spec.items_of]. intros H.
  assert (Hall : Forall (fun d => printable d = true) items).
  { revert errs H. unfold check_dates.
    induction items as [|d items IH]; intros errs H; [constructor|].
    cbn [for_of] in H. apply bind_returns in H. destruct H as (e1 & H1 & H).
    apply bind_returns in H1. destruct H1 as (ok & Hok & _).
    apply isValidISODate_returns in Hok. constructor; [tauto | now apply (IH e1)]. }
  rewrite (check_dates_items items errs Hall) in H. apply Returns_inj in H.
  now split.
Qed.

Lemma check_dates_throws (errs : list string) (v : value) (e : exn) :
  check_dates errs v = Throws e ->
  e = TypeError "Cannot convert object to primitive value"
  /\ ~ Forall (fun d => printable d = true) (Spec.items_of v).
Proof.
  intros H. split.
  - destruct v as [| | | | |items|]; try discriminate H.
    revert errs H. unfold check_dates.
    induction items as [|d items IH]; intros errs H; [discriminate H|].
    cbn [for_of] in H. unfold isValidISODate, ToString in H.
    destruct (printable d); cbn [bind] in H.
    + destruct (negb _); cbn [bind] in H; now apply IH in H.
    + now injection H as <-.
  - intros Hall. destruct v as [| | | | |items|]; try discriminate H.
    cbn [Spec.items_of] in Hall. now rewrite (check_dates_items items errs Hall) in H.
Qed.

Lemma check_windows_items (items : list value) (errs : list string) :
  Forall (fun w => printable w = true) items ->
  check_windows errs (VArr items)
  = Returns (errs ++ Spec.window_allowed (VArr items))%list.
Proof.
  unfold check_windows, Spec.window_allowed. cbn [Spec.items_of].
  intros Hall. revert errs.
  induction Hall as [|w items Hw _ IH]; intros errs; cbn [for_of filter map].
  - now rewrite app_nil_r.
  - destruct (set_has allowedWindows w); cbn [negb bind map].
    + apply IH.
    + rewrite (ToString_printable w Hw). cbn [bind]. rewrite IH.
      unfold push. now rewrite <- app_assoc.
Qed.

Lemma allowed_window_printable (w : value) :
  set_has allowedWindows w = true -> printable w = true.
Proof. now destruct w. Qed.

Lemma check_windows_returns (errs out : list string) (v : value) :
  check_windows errs v = Returns out ->
  out = (errs ++ Spec.window_allowed v)%list
  /\ Forall (fun w => printable w = true) (Spec.items_of v).
Proof.
  destruct v as [| | | | |items|];
    try (intros H; apply Returns_inj in H; subst out;
         split; [now rewrite app_nil_r | constructor]).
  cbn [Spec.items_of]. intros H.
  assert (Hall : Forall (fun w => printable w = true) items).
  { revert errs H. unfold check_windows.
    induction items as [|w items IH]; intros errs H; [constructor|].
    cbn [for_of] in H. apply bind_returns in H. destruct H as (e1 & H1 & H).
    constructor; [|now apply (IH e1)].
    destruct (set_has allowedWindows w) eqn:Hw;
      [now apply allowed_window_printable|].
    cbn [negb] in H1. apply bind_returns in H1. destruct H1 as (t & Ht & _).
    now apply ToString_returns in Ht. }
  rewrite (check_windows_items items errs Hall) in H. apply Returns_inj in H.
  now split.
Qed.

Lemma check_windows_throws (errs : list string) (v : value) (e : exn) :
  check_windows errs v = Throws e ->
  e = TypeError "Cannot convert object to primitive value"
  /\ ~ Forall (fun w => printable w = true) (Spec.items_of v).
Proof.
  intros H. split.
  - destruct v as [| | | | |items|]; try discriminate H.
    revert errs H. unfold check_windows.
    induction items as [|w items IH]; intros errs H; [discriminate H|].
    cbn [for_of] in H. unfold ToString in H.
    destruct (negb _); cbn [bind] in H; [|now apply IH in H].
    destruct (printable w); cbn [bind] in H; [now apply IH in H|].
    now injection H as <-.
  - intros Hall. destruct v as [| | | | |items|]; try discriminate H.
    cbn [Spec.items_of] in Hall.
    now rewrite (check_windows_items items errs Hall) in H.
Qed.

Lemma push_if_required (errs : list string) (field msg : string) :
  push_if (field =? "") errs msg = (errs ++ Spec.required field msg)%list.
Proof.
  unfold Spec.required, push_if, push. destruct (field =? ""); [reflexivity|].
  now rewrite app_nil_r.
Qed.

Lemma push_if_sequence (errs : list string) (v : value) (msg : string) :
  push_if (negb (is_array v) || (array_length v <? 1)%nat) errs msg
  = (errs ++ Spec.sequence_required v msg)%list.
Proof.
  unfold push_if, push. destruct v as [| | | | |[|x l]|]; simpl; try reflexivity.
  now rewrite app_nil_r.
Qed.

(** Steps through the binds of a validator that returned. *)
Ltac step_binds H :=
  cbv zeta in H;
  repeat (apply bind_returns in H;
          let E := fresh "E" in
          destruct H as (? & E & H); cbv beta in H).

(** What the two loops of a validator that returned have pushed. *)
Ltac loops_returned :=
  repeat match goal with
         | E : check_dates _ _ = Returns _ |- _ =>
             apply check_dates_returns in E; destruct E as [-> ?]
         | E : check_windows _ _ = Returns _ |- _ =>
             apply check_windows_returns in E; destruct E as [-> ?]
         end.

Ltac collect_errors :=
  cbv beta iota delta [errors cleaned customer address preferences
                       name phone line1 city zip state Spec.violations];
  rewrite ?push_if_required, ?push_if_sequence;
  cbn [app]; rewrite <- ?app_assoc; reflexivity.

Lemma validateBooking_collects (body : value) (v : Validation) :
  Server.validateBooking body = Returns v ->
  errors v = Spec.violations "Select at least 1 preferred day." body (cleaned v).
Proof.
  unfold Server.validateBooking. intros H. step_binds H. loops_returned.
  injection H as <-. collect_errors.
Qed.

Lemma FileServer_validate_collects (body : value) (v : Validation) :
  FileServer.validate body = Returns v ->
  let dates := opt_get (opt_get body "preferences") "dates" in
  let windows := opt_get (opt_get body "preferences") "windows" in
  preferences (cleaned v) = {| dates := dates; windows := windows |}
  /\ errors v =
      (Spec.sequence_required dates "Select at least 1 day."
       ++ Spec.sequence_required windows "Select at least 1 time window."
       ++ Spec.date_format dates
       ++ Spec.window_allowed windows
       ++ Spec.required (name (customer (cleaned v))) "Name is required."
       ++ Spec.required (phone (customer (cleaned v))) "Phone is required."
       ++ Spec.required (line1 (address (cleaned v))) "Street address is required."
       ++ Spec.required (city (address (cleaned v))) "City is required."
       ++ Spec.required (state (address (cleaned v))) "State is required."
       ++ Spec.required (zip (address (cleaned v))) "ZIP is required.")%list.
Proof.
  unfold FileServer.validate. intros H. step_binds H. loops_returned.
  injection H as <-. split; [reflexivity|]. collect_errors.
Qed.

Lemma PgDraft_validate_collects (body : value) (v : Validation) :
  PgDraft.validate body = Returns v ->
  errors v = Spec.violations "Select at least 1 preferred day." body (cleaned v).
Proof.
  unfold PgDraft.validate. intros H. step_binds H. loops_returned.
  injection H as <-. collect_errors.
Qed.

(** A validator that returned could coerce what it had to. *)
Lemma validateBooking_coercible (body : value) (v : Validation) :
  Server.validateBooking body = Returns v -> Spec.coercible body.
Proof.
  unfold Server.validateBooking. intros H. step_binds H. loops_returned.
  repeat split; try assumption.
  match goal with
  | E : normalizePhone _ = Returns _ |- _ =>
      apply normalizePhone_returns in E; destruct E as [Hp _]
  end.
  unfold or_else in Hp.
  destruct (truthy (opt_get (opt_get body "customer") "phone")) eqn:Ht;
    [now rewrite Ht in Hp|].
  now destruct (opt_get (opt_get body "customer") "phone") as [| |[]|[]| | |].
Qed.

Lemma trimmed_text_like (x : value) :
  Spec.text_like x -> exists s, trimmed x = Returns s.
Proof.
  unfold trimmed, or_else. intros [Hf | [s ->]].
  - rewrite Hf. now eexists.
  - destruct (truthy (VStr s)); now eexists.
Qed.

Lemma phone_printable (x : value) :
  printable x = true ->
  printable (or_else (or_else x (VStr "")) (VStr "")) = true.
Proof. intros H. now repeat apply printable_or_else. Qed.

Lemma check_dates_coercible (errs : list string) (v : value) :
  Forall (fun d => printable d = true) (Spec.items_of v) ->
  check_dates errs v = Returns (errs ++ Spec.date_format v)%list.
Proof.
  destruct v as [| | | | |items|]; try (intros _; simpl; now rewrite app_nil_r).
  apply check_dates_items.
Qed.

Lemma check_windows_coercible (errs : list string) (v : value) :
  Forall (fun w => printable w = true) (Spec.items_of v) ->
  check_windows errs v = Returns (errs ++ Spec.window_allowed v)%list.
Proof.
  destruct v as [| | | | |items|]; try (intros _; simpl; now rewrite app_nil_r).
  apply check_windows_items.
Qed.

Lemma validateBooking_returns (body : value) :
  Spec.text_fields body -> Spec.coercible body ->
  exists v, Server.validateBooking body = Returns v.
Proof.
  intros (Hn & He & H1 & H2 & Hc & Hs & Hz & Ho) (Hd & Hw & Hp).
  unfold Server.validateBooking. cbv zeta.
  rewrite (check_dates_coercible _ _ Hd). cbn [bind].
  rewrite (check_windows_coercible _ _ Hw). cbn [bind].
  destruct (trimmed_text_like _ Hn) as [? ->]. cbn [bind].
  unfold normalizePhone.
  rewrite (ToString_printable _ (phone_printable _ Hp)). cbn [bind].
  destruct (trimmed_text_like _ He) as [? ->].
  destruct (trimmed_text_like _ H1) as [? ->].
  destruct (trimmed_text_like _ H2) as [? ->].
  destruct (trimmed_text_like _ Hc) as [? ->].
  destruct (trimmed_text_like _ Hs) as [? ->].
  destruct (trimmed_text_like _ Hz) as [? ->].
  destruct (trimmed_text_like _ Ho) as [? ->].
  cbn [bind]. now eexists.
Qed.

(** Which messages name a date. *)
Lemma required_not_date (field msg d : string) :
  msg = "Name is required." \/ msg = "Phone is required."
  \/ msg = "Street address is required." \/ msg = "City is required."
  \/ msg = "ZIP is required." \/ msg = "State is required." ->
  ~ In ("Invalid date: " ++ d) (Spec.required field msg).
Proof.
  unfold Spec.required. intros Hm Hin.
  destruct (field =? ""); simpl in Hin; [|exact Hin].
  destruct Hin as [Heq | []].
  destruct Hm as [-> | [-> | [-> | [-> | [-> | ->]]]]]; discriminate Heq.
Qed.

Lemma sequence_not_date (x : value) (msg d : string) :
  msg = "Select at least 1 preferred day." \/ msg = "Select at least 1 day."
  \/ msg = "Select at least 1 time window." ->
  ~ In ("Invalid date: " ++ d) (Spec.sequence_required x msg).
Proof.
  intros Hm Hin.
  assert (Heq : msg = "Invalid date: " ++ d).
  { destruct x as [| | | | |[|? ?]|]; simpl in Hin;
      try (destruct Hin as [H | []]; exact H); contradiction. }
  destruct Hm as [-> | [-> | ->]]; discriminate Heq.
Qed.

Lemma window_not_date (x : value) (d : string) :
  ~ In ("Invalid date: " ++ d) (Spec.window_allowed x).
Proof.
  unfold Spec.window_allowed. intros Hin.
  apply in_map_iff in Hin. destruct Hin as (w & Heq & _). discriminate Heq.
Qed.

Lemma date_format_In (x : value) (d : string) :
  In ("Invalid date: " ++ d) (Spec.date_format x) <->
  exists item, In item (Spec.items_of x)
               /\ Spec.date_ok item = false /\ to_string item = d.
Proof.
  unfold Spec.date_format. rewrite in_map_iff. split.
  - intros (item & Heq & Hin). apply filter_In in Hin. destruct Hin as [Hin Hv].
    exists item. repeat split; [assumption | now apply negb_true_iff |].
    now apply append_inj_l in Heq.
  - intros (item & Hin & Hv & <-). exists item. split; [reflexivity|].
    apply filter_In. split; [assumption | now rewrite Hv].
Qed.

Lemma violations_date_In (day_msg : string) (body : value) (c : Cleaned) (d : string) :
  day_msg = "Select at least 1 preferred day." \/ day_msg = "Select at least 1 day." ->
  In ("Invalid date: " ++ d) (Spec.violations day_msg body c) <->
  exists item,
    In item (Spec.items_of (opt_get (opt_get body "preferences") "dates"))
    /\ Spec.date_ok item = false /\ to_string item = d.
Proof.
  intros Hday. rewrite <- date_format_In. unfold Spec.violations.
  rewrite !in_app_iff. split.
  - intros [H | [H | [H | [H | [H | [H | [H | [H | H]]]]]]]];
      try assumption; exfalso.
    + revert H. apply sequence_not_date. tauto.
    + revert H. apply sequence_not_date. tauto.
    + revert H. apply window_not_date.
    + revert H. apply required_not_date. tauto.
    + revert H. apply required_not_date. tauto.
    + revert H. apply required_not_date. tauto.
    + revert H. apply required_not_date. tauto.
    + revert H. apply required_not_date. tauto.
  - tauto.
Qed.


(* ================================================================== *)
(** * Validation: the properties *)
(* ================================================================== *)


(** C8.  Phone normalization keeps the digits of a string and nothing
    else, in order; normalizing twice is normalizing once; and a string
    of digits only is returned as it is. *)
Theorem C8_normalizePhone_idempotent (s : string) :
  exists p,
    normalizePhone (VStr s) = Returns p
    /\ p = Spec.keep_digits s
    /\ Spec.all_digits p = true
    /\ normalizePhone (VStr p) = Returns p
    /\ (Spec.all_digits s = true -> p = s).
Proof.
  exists (Spec.keep_digits s). rewrite !normalizePhone_str.
  split; [reflexivity|]. split; [reflexivity|].
  split; [apply keep_digits_all_digits|]. split.
  - f_equal. apply keep_digits_fixed, keep_digits_all_digits.
  - apply keep_digits_fixed.
Qed.

(** C4.  A string of the submitted dates sequence passes exactly when it
    has the shape of the pattern (four digits, a dash, two digits, a
    dash, two digits, and nothing else); the calendar is not consulted,
    so 2024-02-31 passes; and a string that does not match is reported
    by a message that names it, while a matching one is not. *)
Theorem C4_dates_checked_by_pattern
    (body : value) (v : Validation) (items : list value) (d : string) :
  Server.validateBooking body = Returns v ->
  opt_get (opt_get body "preferences") "dates" = VArr items ->
  In (VStr d) items ->
  isValidISODate (VStr d) = Returns (Spec.iso_shape d)
  /\ isValidISODate (VStr "2024-02-31") = Returns true
  /\ (isValidISODate (VStr d) = Returns true ->
      ~ In ("Invalid date: " ++ d) (errors v))
  /\ (isValidISODate (VStr d) = Returns false ->
      In ("Invalid date: " ++ d) (errors v)).
Proof.
  intros Hv Hdates Hin.
  rewrite (validateBooking_collects _ _ Hv).
  rewrite !isValidISODate_string, iso_date_re_shape.
  split; [reflexivity|]. split; [reflexivity|].
  split; intros Hd; apply Returns_inj in Hd.
  - rewrite violations_date_In by tauto.
    intros (item & _ & Hbad & Hs).
    unfold Spec.date_ok in Hbad. rewrite Hs, iso_date_re_shape in Hbad. congruence.
  - apply violations_date_In; [tauto|].
    exists (VStr d). rewrite Hdates. unfold Spec.date_ok.
    rewrite iso_date_re_shape. simpl. auto.
Qed.

Lemma C4_witness :
  isValidISODate (VStr "03/01/2025") = Returns (Spec.iso_shape "03/01/2025")
  /\ isValidISODate (VStr "2024-02-31") = Returns true
  /\ (isValidISODate (VStr "03/01/2025") = Returns true ->
      ~ In "Invalid date: 03/01/2025"
          ["Invalid date: 03/01/2025"])
  /\ (isValidISODate (VStr "03/01/2025") = Returns false ->
      In "Invalid date: 03/01/2025" ["Invalid date: 03/01/2025"]).
Proof.
  exact (C4_dates_checked_by_pattern Examples.three_dates _ _ "03/01/2025"
           eq_refl eq_refl (or_intror (or_intror (or_introl eq_refl)))).
Defined.

(** C3, at the input where the validator stops short.  With the name
    sent as a number, the call of trim throws before any list of
    violations is returned, although the submission breaks four rules;
    the phone, which is coerced with String first, raises no such error,
    and the same submission with a blank string for the name gets the
    full list. *)
Theorem C3_validator_throws_on_numeric_name :
  Server.validateBooking Examples.numeric_name
  = Throws (TypeError "trim is not a function")
  /\ normalizePhone (VNum (int 42)) = Returns "42"
  /\ exists v,
       Server.validateBooking Examples.four_violations = Returns v
       /\ errors v =
          ["Select at least 1 preferred day."; "Invalid window: noon";
           "Name is required."; "Phone is required."].
Proof.
  split; [reflexivity|]. split; [reflexivity|].
  eexists. split; reflexivity.
Qed.

Lemma trimmed_blank (st : value) (s : string) :
  truthy st = false \/ (exists t, st = VStr t /\ trim t = "") ->
  trimmed st = Returns s -> s = "".
Proof.
  unfold trimmed, or_else. intros [Hf | (t & -> & Ht)].
  - rewrite Hf. simpl. now intros [= <-].
  - destruct (truthy (VStr t)); simpl; intros [= <-]; [assumption | reflexivity].
Qed.

(** C5, as the file-based server has it: the valid submission of the
    specification, which names no state, is refused there with the
    message that the state is required, and no state is filled in. *)
Lemma C5_file_server_requires_state :
  opt_get (opt_get Examples.jane "address") "state" = VUndefined
  /\ exists v,
       FileServer.validate Examples.jane = Returns v
       /\ errors v = ["State is required."]
       /\ state (address (cleaned v)) = "".
Proof.
  split; [reflexivity|]. eexists. repeat split.
Qed.

(** C5, amended.  For a submission whose state is absent (or otherwise
    falsy) or is a string of white space only: in the two Postgres
    servers, whenever the validator answers, the normalized record gets
    the state UT and the errors are those of the other rules alone; in
    the file-based server, whenever the validator answers, no state is
    filled in and the errors are those of the other rules with the
    message that the state is required among them. *)
Theorem C5_state_defaults_to_UT (body : value) (v : Validation) :
  (let st := opt_get (opt_get body "address") "state" in
   truthy st = false \/ exists t, st = VStr t /\ trim t = "") ->
  ((Server.validateBooking body = Returns v \/ PgDraft.validate body = Returns v) ->
   state (address (cleaned v)) = "UT"
   /\ errors v = Spec.violations "Select at least 1 preferred day." body (cleaned v))
  /\ (FileServer.validate body = Returns v ->
      let dates := opt_get (opt_get body "preferences") "dates" in
      let windows := opt_get (opt_get body "preferences") "windows" in
      state (address (cleaned v)) = ""
      /\ In "State is required." (errors v)
      /\ errors v =
         (Spec.sequence_required dates "Select at least 1 day."
          ++ Spec.sequence_required windows "Select at least 1 time window."
          ++ Spec.date_format dates
          ++ Spec.window_allowed windows
          ++ Spec.required (name (customer (cleaned v))) "Name is required."
          ++ Spec.required (phone (customer (cleaned v))) "Phone is required."
          ++ Spec.required (line1 (address (cleaned v)))
               "Street address is required."
          ++ Spec.required (city (address (cleaned v))) "City is required."
          ++ ["State is required."]
          ++ Spec.required (zip (address (cleaned v))) "ZIP is required.")%list).
Proof.
  intros Hst. split.
  - intros Hv. split.
    + destruct Hv as [Hv | Hv];
        [unfold Server.validateBooking in Hv | unfold PgDraft.validate in Hv];
        step_binds Hv; injection Hv as <-; simpl;
        match goal with
        | E : trimmed (opt_get (opt_get body "address") "state") = Returns ?s |- _ =>
            rewrite (trimmed_blank _ _ Hst E)
        end; reflexivity.
    + destruct Hv as [Hv | Hv];
        [apply validateBooking_collects | apply PgDraft_validate_collects];
        exact Hv.
  - intros Hv dates windows.
    assert (Hs : state (address (cleaned v)) = "").
    { unfold FileServer.validate in Hv. step_binds Hv. injection Hv as <-. simpl.
      match goal with
      | E : trimmed (opt_get (opt_get body "address") "state") = Returns ?s |- _ =>
          exact (trimmed_blank _ _ Hst E)
      end. }
    destruct (FileServer_validate_collects _ _ Hv) as [_ He].
    rewrite Hs in He. change (Spec.required "" "State is required.")
      with ["State is required."] in He.
    split; [exact Hs|]. split; [|exact He].
    rewrite He, !in_app_iff. do 8 right. left. now left.
Qed.

Lemma C5_witness :
  (exists v,
      Server.validateBooking Examples.jane_blank_state = Returns v
      /\ state (address (cleaned v)) = "UT"
      /\ errors v = [])
  /\ exists v,
       FileServer.validate Examples.jane_blank_state = Returns v
       /\ state (address (cleaned v)) = ""
       /\ errors v = ["State is required."].
Proof.
  assert (Hst : let st := opt_get (opt_get Examples.jane_blank_state "address")
                            "state" in
                truthy st = false \/ exists t, st = VStr t /\ trim t = "").
  { right. exists "   ". split; reflexivity. }
  split.
  - destruct (Server.validateBooking Examples.jane_blank_state) as [v|e] eqn:Hv;
      [|vm_compute in Hv; discriminate].
    destruct (proj1 (C5_state_defaults_to_UT Examples.jane_blank_state v Hst)
                (or_introl Hv)) as [Hs He].
    exists v. split; [reflexivity|]. split; [exact Hs|]. rewrite He.
    vm_compute in Hv. apply Returns_inj in Hv. subst v. reflexivity.
  - destruct (FileServer.validate Examples.jane_blank_state) as [v|e] eqn:Hv;
      [|vm_compute in Hv; discriminate].
    destruct (proj2 (C5_state_defaults_to_UT Examples.jane_blank_state v Hst) Hv)
      as (Hs & _ & He).
    exists v. split; [reflexivity|]. split; [exact Hs|]. rewrite He.
    vm_compute in Hv. apply Returns_inj in Hv. subst v. reflexivity.
Defined.

(* ================================================================== *)
(** * ORDER BY and LIMIT *)
(* ================================================================== *)

Lemma firstn_subset {A : Type} (n : nat) (l : list A) (x : A) :
  In x (firstn n l) -> In x l.
Proof.
  revert l. induction n as [|n IH]; intros [|y l]; simpl; try tauto.
  intros [H | H]; [now left | right; now apply IH].
Qed.

Section OrderByFacts.
Context {Row : Type} (key : Row -> Z).

Lemma insert_desc_perm (r : Row) (l : list Row) :
  Permutation (Sql.insert_desc key r l) (r :: l).
Proof.
  induction l as [|x l IH]; simpl; [reflexivity|].
  destruct (key x <=? key r)%Z; [reflexivity|].
  rewrite IH. apply perm_swap.
Qed.

Lemma order_by_desc_perm (l : list Row) :
  Permutation (Sql.order_by_desc key l) l.
Proof.
  induction l as [|x l IH]; simpl; [reflexivity|].
  rewrite insert_desc_perm. now constructor.
Qed.





End OrderByFacts.


(* ================================================================== *)
(** * The guard and the administrative routes *)
(* ================================================================== *)

Section AdminRoutes.
Import JS Http.

Lemma requireAdmin_authorized (env : Env) (next : Server.Handler)
    (req : Request) (db : Pg.Store) :
  Spec.authorized env req -> Server.requireAdmin env next req db = next req db.
Proof.
  intros (k & Hk & Hne & Hh). unfold Server.requireAdmin.
  rewrite Hk, Hh. simpl. rewrite String.eqb_refl.
  destruct (k =? "") eqn:E; [|reflexivity].
  apply String.eqb_eq in E. contradiction.
Qed.

Lemma strict_eq_true (a b : option string) :
  Server.strict_eq a b = true <-> a = b.
Proof.
  destruct a as [x|], b as [y|]; simpl; split; try congruence; try reflexivity.
  - intros H. apply String.eqb_eq in H. now subst.
  - intros [= ->]. apply String.eqb_refl.
Qed.

Lemma set_rows_same (db : Pg.Store) : Pg.set_rows db (Pg.rows db) = db.
Proof. now destruct db. Qed.

Lemma no_hit_count (key : Z) (rs : list Pg.Row) :
  length (filter (fun r => (Pg.id r =? key)%Z) rs) = 0
  <-> forall r, In r rs -> Pg.id r <> key.
Proof.
  induction rs as [|x rs IH]; simpl.
  - split; [intros _ r [] | reflexivity].
  - destruct (Pg.id x =? key)%Z eqn:E; simpl.
    + apply Z.eqb_eq in E. split; [discriminate|].
      intros H. exfalso. now apply (H x); [left|].
    + apply Z.eqb_neq in E. rewrite IH. split.
      * intros H r [<- | Hr]; [assumption | now apply H].
      * intros H r Hr. apply H. now right.
Qed.

Lemma no_hit_map (key : Z) (st : string) (rs : list Pg.Row) :
  (forall r, In r rs -> Pg.id r <> key) ->
  map (fun r => if (Pg.id r =? key)%Z then Pg.set_status r st else r) rs = rs.
Proof.
  intros H. rewrite <- (map_id rs) at 2. apply map_ext_in.
  intros r Hr. apply H in Hr. apply Z.eqb_neq in Hr. now rewrite Hr.
Qed.

Lemma allowed_has (st : string) :
  Booking.set_has Server.allowed (VStr st) = true <-> In st Server.allowed.
Proof.
  simpl. rewrite !orb_true_iff, !String.eqb_eq. intuition congruence.
Qed.

(** The update, case by case. *)
Lemma update_request_cases (req : Request) (db : Pg.Store) :
  let q := or_else (opt_get (body req) "status") (VStr "") in
  let st := trim (to_string q) in
  (printable q = false
   /\ Server.update_request req db
      = (Throws (TypeError "Cannot convert object to primitive value"), db))
  \/ (printable q = true /\ ~ In st Server.allowed
      /\ Server.update_request req db
         = (Returns
              (status_json 400
                 (ErrorBody "Invalid status. Use: requested | scheduled | cancelled")),
            db))
  \/ (printable q = true /\ In st Server.allowed
      /\ (exists err,
            Server.update_request req db
            = (Returns
                 (status_json 500
                    (ErrorBody (message_or err "Database update failed"))),
               db))
      /\ (Pg.fault db <> None \/ Pg.read_id db (params_id req) = None))
  \/ (printable q = true /\ In st Server.allowed /\ Pg.fault db = None
      /\ exists key,
           Pg.read_id db (params_id req) = Some key
           /\ (forall r, In r (Pg.rows db) -> Pg.id r <> key)
           /\ Server.update_request req db
              = (Returns (status_json 404 (ErrorBody "Not found")), db))
  \/ (printable q = true /\ In st Server.allowed /\ Pg.fault db = None
      /\ exists key,
           Pg.read_id db (params_id req) = Some key
           /\ (exists r, In r (Pg.rows db) /\ Pg.id r = key)
           /\ Server.update_request req db
              = (Returns (json OkBody),
                 Pg.set_rows db
                   (map (fun r => if (Pg.id r =? key)%Z
                                  then Pg.set_status r st else r)
                      (Pg.rows db)))).
Proof.
  intros q st. unfold Server.update_request, ToString. fold q.
  destruct (printable q) eqn:Hp; [|left; now split].
  right. fold st.
  destruct (Booking.set_has Server.allowed (VStr st)) eqn:Ha; cbn [negb].
  2:{ left. split; [reflexivity|]. split; [|reflexivity].
      intros Hin. apply allowed_has in Hin. congruence. }
  apply allowed_has in Ha. right.
  unfold Pg.update_status.
  destruct (Pg.fault db) as [msg|] eqn:Hf.
  { left. split; [reflexivity|]. split; [assumption|].
    split; [eexists; reflexivity|]. left. congruence. }
  destruct (Pg.read_id db (params_id req)) as [key|] eqn:Hk.
  2:{ left. split; [reflexivity|]. split; [assumption|].
      split; [eexists; reflexivity|]. now right. }
  right.
  destruct (length (filter (fun r => (Pg.id r =? key)%Z) (Pg.rows db)) =? 0)%nat
    eqn:Hc.
  - left. apply Nat.eqb_eq in Hc. pose proof (proj1 (no_hit_count _ _) Hc) as Hno.
    clear Hc. rename Hno into Hc.
    split; [reflexivity|]. split; [assumption|]. split; [reflexivity|]. exists key.
    split; [reflexivity|]. split; [assumption|].
    now rewrite (no_hit_map key st _ Hc), set_rows_same.
  - right. apply Nat.eqb_neq in Hc.
    split; [reflexivity|]. split; [assumption|]. split; [reflexivity|]. exists key.
    split; [reflexivity|]. split; [|reflexivity].
    destruct (filter (fun r => (Pg.id r =? key)%Z) (Pg.rows db)) as [|r l] eqn:Hfl;
      [contradiction|].
    assert (Hr : In r (filter (fun r => (Pg.id r =? key)%Z) (Pg.rows db)))
      by (rewrite Hfl; now left).
    apply filter_In in Hr. destruct Hr as [Hr Hid].
    exists r. split; [assumption | now apply Z.eqb_eq].
Qed.

(** C1, where it fails.  The file-based server registers its listing
    with no guard: a caller who sends no key gets the requests with a
    200 even when no secret is configured, where server/server.js
    answers 401.  And in server/server.js a secret configured as the
    empty string counts as missing: the request is refused although
    the header equals the configured value. *)
Lemma C1_unguarded_listing_and_empty_secret :
  (exists out,
      FileServer.get_admin_requests (Examples.anonymous_request (VObj []))
        Examples.after_jane
      = (Returns (json (RequestsBody out)), Examples.after_jane)
      /\ map (fun l => Sqlite.name (FileServer.row l)) out = ["Jane Doe"])
  /\ fst (Server.get_admin_requests Examples.no_secret
            (Examples.anonymous_request (VObj [])) Examples.three_rows)
     = Returns (status_json 401 (ErrorBody "Unauthorized"))
  /\ header (headers (Examples.admin_request "" (VObj []) "1" VUndefined))
       "x-admin-key"
     = ADMIN_KEY Examples.empty_secret
  /\ fst (Server.get_admin_requests Examples.empty_secret
            (Examples.admin_request "" (VObj []) "1" VUndefined)
            Examples.three_rows)
     = Returns (status_json 401 (ErrorBody "Unauthorized")).
Proof.
  split; [|repeat split].
  eexists. split; [vm_compute; reflexivity | reflexivity].
Qed.

(** C1, amended.  For every route registered behind requireAdmin, so for
    both administrative routes of server/server.js: when ADMIN_KEY is
    unset or empty, or the x-admin-key header is missing or differs from
    it, the answer is 401 Unauthorized, the store is left as it was and
    the handler behind the guard has no part in the result; in every
    other case the result is that of the handler itself. *)
Theorem C1_requireAdmin_guards
    (env : Env) (next : Server.Handler) (req : Request) (db : Pg.Store) :
  let key := header (headers req) "x-admin-key" in
  ((ADMIN_KEY env = None \/ ADMIN_KEY env = Some "" \/ key <> ADMIN_KEY env) ->
   Server.requireAdmin env next req db
   = (Returns (status_json 401 (ErrorBody "Unauthorized")), db))
  /\ (~ (ADMIN_KEY env = None \/ ADMIN_KEY env = Some "" \/ key <> ADMIN_KEY env) ->
      Server.requireAdmin env next req db = next req db)
  /\ Server.get_admin_requests env = Server.requireAdmin env Server.list_requests
  /\ Server.patch_admin_request env = Server.requireAdmin env Server.update_request.
Proof.
  intros key. unfold Server.requireAdmin. fold key.
  split; [|split; [|split; reflexivity]].
  - intros [H | [H | H]].
    + now rewrite H.
    + now rewrite H.
    + destruct (Server.strict_eq key (ADMIN_KEY env)) eqn:E.
      * apply strict_eq_true in E. contradiction.
      * now rewrite orb_true_r.
  - intros H.
    destruct (ADMIN_KEY env) as [k|] eqn:Hk; [|exfalso; apply H; now left].
    destruct (Server.strict_eq key (Some k)) eqn:E.
    + simpl. destruct (k =? "") eqn:Ek; [|reflexivity].
      apply String.eqb_eq in Ek. subst k. exfalso. apply H. right. now left.
    + exfalso. apply H. right. right. intros Heq.
      apply strict_eq_true in Heq. congruence.
Qed.




(** C7.  An update answered 200 leaves the table with the same rows in
    the same places: the rows with the given key differ from what they
    were in the status alone, which is now the requested one, and every
    other row is what it was. *)
Theorem C7_update_changes_status_only
    (env : Env) (req : Request) (db db' : Pg.Store) (resp : Response Pg.Row) :
  Server.patch_admin_request env req db = (Returns resp, db') ->
  status_code resp = 200 ->
  exists key st,
    Pg.read_id db (params_id req) = Some key
    /\ In st Server.allowed
    /\ Pg.read_id db' = Pg.read_id db
    /\ Pg.fault db' = Pg.fault db
    /\ length (Pg.rows db') = length (Pg.rows db)
    /\ forall i r,
         nth_error (Pg.rows db) i = Some r ->
         exists r',
           nth_error (Pg.rows db') i = Some r'
           /\ Spec.same_but_status r r'
           /\ (Pg.id r = key -> Pg.status r' = st)
           /\ (Pg.id r <> key -> r' = r).
Proof.
  unfold Server.patch_admin_request, Server.requireAdmin.
  destruct (_ || _); [intros [= <- <-]; discriminate|].
  destruct (update_request_cases req db)
    as [[Hp ->] | [(Hp & Hn & ->) | [(Hp & Ha & [err ->] & Hbad)
       | [(Hp & Ha & Hf & key & Hk & Hnone & ->)
         | (Hp & Ha & Hf & key & Hk & Hsome & ->)]]]];
    intros [= <- <-]; try discriminate.
  intros _. exists key. eexists. split; [exact Hk|]. split; [exact Ha|].
  split; [reflexivity|]. split; [reflexivity|].
  cbn [Pg.rows Pg.set_rows]. split; [apply length_map|].
  intros i r Hi. rewrite nth_error_map, Hi. cbn [option_map].
  eexists. split; [reflexivity|].
  destruct (Pg.id r =? key)%Z eqn:E.
  - apply Z.eqb_eq in E. split; [repeat split|]. split; [reflexivity|].
    intros Hne. contradiction.
  - apply Z.eqb_neq in E. split; [repeat split|]. split; [|reflexivity].
    intros He. contradiction.
Qed.

Lemma C7_witness :
  exists key st,
    Examples.read_decimal "2" = Some key
    /\ In st Server.allowed
    /\ forall i r,
         nth_error (Pg.rows Examples.three_rows) i = Some r ->
         exists r',
           nth_error
             (Pg.rows
                (snd (Server.patch_admin_request Examples.secret
                        (Examples.admin_request "s3cret" (VObj []) "2"
                           (VObj [("status", VStr "cancelled")]))
                        Examples.three_rows))) i = Some r'
           /\ Spec.same_but_status r r'
           /\ (Pg.id r = key -> Pg.status r' = st)
           /\ (Pg.id r <> key -> r' = r).
Proof.
  destruct (C7_update_changes_status_only Examples.secret
              (Examples.admin_request "s3cret" (VObj []) "2"
                 (VObj [("status", VStr "cancelled")]))
              Examples.three_rows _ _ eq_refl eq_refl)
    as (key & st & Hk & Ha & _ & _ & _ & H).
  exists key, st. repeat split; assumption.
Defined.






End AdminRoutes.

(* ================================================================== *)
(** * JSON text read back *)
(* ================================================================== *)

Section JsonFacts.
Import JS Json.

Lemma length_append (a b : string) :
  String.length (a ++ b) = String.length a + String.length b.
Proof. induction a; simpl; congruence. Qed.

Lemma read_quote_char (c : ascii) (tail : string) :
  read_string (quote_char c ++ tail) = cons_to c (read_string tail).
Proof. destruct c as [[] [] [] [] [] [] [] []]; reflexivity. Qed.

Lemma read_string_quote_body (s rest : string) :
  read_string (quote_body s ++ String dquote rest) = Some (s, rest).
Proof.
  induction s as [|c s IH]; simpl; [reflexivity|].
  now rewrite append_assoc, read_quote_char, IH.
Qed.

Lemma stringify_array (items : list value) :
  stringify (VArr items) = Some ("[" ++ join "," (map Spec.text items) ++ "]").
Proof.
  reflexivity.
Qed.

Lemma size_array (items : list value) :
  Spec.size (VArr items) = S (Spec.items_size items).
Proof.
  reflexivity.
Qed.

Lemma plain_array (items : list value) :
  Spec.plain (VArr items) = true <-> Forall (fun x => Spec.plain x = true) items.
Proof.
  simpl. induction items as [|x l IH]; simpl.
  - split; [constructor | reflexivity].
  - rewrite andb_true_iff, IH. split.
    + intros [Hx Hl]. now constructor.
    + intros H. inversion H; subst. now split.
Qed.

Lemma text_opens (v : value) : Spec.plain v = true -> Spec.opens_value (Spec.text v).
Proof.
  destruct v as [| |[|]| |s|items|]; try discriminate; intros _;
    eexists; eexists; (split; [reflexivity | split; reflexivity]).
Qed.

Lemma join_opens (x : value) (l : list value) :
  Spec.plain x = true ->
  Spec.opens_value (join "," (map Spec.text (x :: l))).
Proof.
  intros Hx. destruct (text_opens x Hx) as (c & tl & Ht & Hs & Hb).
  cbn [map join]. rewrite Ht.
  destruct (map Spec.text l); [now exists c, tl|].
  exists c. eexists. split; [reflexivity | now split].
Qed.

Lemma skip_ws_opens (t rest : string) :
  Spec.opens_value t -> skip_ws (t ++ rest) = t ++ rest.
Proof. intros (c & tl & -> & Hs & _). simpl. now rewrite Hs. Qed.

Lemma read_items_more (fuel : nat) (s : string) (v : value) (rest : string) :
  read_value fuel s = Some (v, String "," rest) ->
  read_items (S fuel) s
  = match read_items fuel rest with
    | Some (vs, rest') => Some (v :: vs, rest')
    | None => None
    end.
Proof. intros H. cbn [read_items]. now rewrite H. Qed.

Lemma read_items_last (fuel : nat) (s : string) (v : value) (rest : string) :
  read_value fuel s = Some (v, String "]" rest) ->
  read_items (S fuel) s = Some ([v], rest).
Proof. intros H. cbn [read_items]. now rewrite H. Qed.

Lemma join_cons (sep t u : string) (ts : list string) :
  join sep (t :: u :: ts) = t ++ sep ++ join sep (u :: ts).
Proof. reflexivity. Qed.

Lemma read_items_texts (l : list value) :
  Forall (fun v =>
            Spec.plain v = true ->
            forall fuel rest, Spec.size v <= fuel ->
              read_value fuel (Spec.text v ++ rest) = Some (v, rest)) l ->
  Forall (fun x => Spec.plain x = true) l ->
  l <> [] ->
  forall fuel rest,
    Spec.items_size l <= fuel ->
    read_items fuel (join "," (map Spec.text l) ++ String "]" rest) = Some (l, rest).
Proof.
  induction l as [|x l IH]; intros HP Hpl Hne fuel rest Hfuel; [contradiction|].
  inversion HP as [|? ? HPx HPl]; subst. inversion Hpl as [|? ? Hx Hl]; subst.
  cbn [Spec.items_size] in Hfuel.
  destruct fuel as [|fuel]; [lia|].
  destruct l as [|y l].
  - apply read_items_last. cbn [map join]. apply (HPx Hx). lia.
  - cbn [map]. rewrite join_cons, !append_assoc.
    rewrite (read_items_more fuel _ x
               (join "," (Spec.text y :: map Spec.text l) ++ String "]" rest)).
    + change (Spec.text y :: map Spec.text l) with (map Spec.text (y :: l)).
      rewrite (IH HPl Hl ltac:(discriminate) fuel rest ltac:(lia)). reflexivity.
    + apply (HPx Hx fuel
               (String "," (join "," (Spec.text y :: map Spec.text l)
                            ++ String "]" rest))).
      lia.
Qed.

(** Reading the text of a plain value gives the value back. *)
Lemma read_value_text (v : value) :
  Spec.plain v = true ->
  forall fuel rest,
    Spec.size v <= fuel ->
    read_value fuel (Spec.text v ++ rest) = Some (v, rest).
Proof.
  induction v as [| |b| |s|items IH|] using value_ind';
    try discriminate; intros Hp fuel rest Hfuel;
    (destruct fuel as [|fuel]; [simpl in Hfuel; lia|]).
  - reflexivity.
  - destruct b; reflexivity.
  - unfold Spec.text. cbn [stringify quote read_value append skip_ws].
    change (is_json_space dquote) with false. cbv iota.
    rewrite Ascii.eqb_refl, append_assoc.
    change (String dquote "" ++ rest) with (String dquote rest).
    now rewrite read_string_quote_body.
  - apply plain_array in Hp. rewrite size_array in Hfuel.
    unfold Spec.text. rewrite stringify_array.
    destruct items as [|x l]; [reflexivity|].
    inversion Hp as [|? ? Hx Hl]; subst.
    destruct (join_opens x l Hx) as (c & tl & Hj & Hs & Hb).
    rewrite !append_assoc.
    change ("]" ++ rest) with (String "]" rest).
    assert (Hitems :
              read_items fuel (join "," (map Spec.text (x :: l)) ++ String "]" rest)
              = Some (x :: l, rest)).
    { apply read_items_texts; [assumption | assumption | discriminate | lia]. }
    cbn [read_value append skip_ws].
    change (is_json_space "[") with false. cbv iota.
    change (Ascii.eqb "[" dquote) with false.
    change (Ascii.eqb "[" "[") with true. cbv iota.
    rewrite Hitems. rewrite Hj. cbn [append skip_ws]. rewrite Hs, Hb.
    reflexivity.
Qed.

Lemma size_le_length (v : value) :
  Spec.plain v = true -> Spec.size v <= String.length (Spec.text v).
Proof.
  induction v as [| |b| |s|items IH|] using value_ind'; try discriminate;
    intros Hp.
  - simpl. lia.
  - destruct b; simpl; lia.
  - simpl. lia.
  - apply plain_array in Hp. rewrite size_array.
    unfold Spec.text. rewrite stringify_array.
    rewrite !length_append. cbn [String.length].
    enough (Spec.items_size items <= String.length (join "," (map Spec.text items)) + 1)
      by lia.
    induction items as [|x l IHl]; [simpl; lia|].
    inversion IH as [|? ? IHx IHrest]; subst.
    inversion Hp as [|? ? Hx Hl]; subst.
    specialize (IHl IHrest Hl). specialize (IHx Hx).
    cbn [Spec.items_size]. destruct l as [|y l].
    + simpl in *. lia.
    + cbn [map]. rewrite join_cons, !length_append.
      cbn [map] in IHl. cbn [String.length]. lia.
Qed.

(** [JSON.parse(JSON.stringify(v))] is [v] for a plain value. *)
Lemma parse_stringify (v : value) :
  Spec.plain v = true ->
  exists t, stringify v = Some t /\ parse t = Returns v.
Proof.
  intros Hp. exists (Spec.text v). split.
  - unfold Spec.text. destruct v as [| |[|]| | | |]; try discriminate; reflexivity.
  - unfold parse.
    rewrite <- (append_empty_r (Spec.text v)) at 2.
    rewrite (read_value_text v Hp); [reflexivity|].
    pose proof (size_le_length v Hp). lia.
Qed.

End JsonFacts.


(* ================================================================== *)
(** * What passes validation *)
(* ================================================================== *)

Section ValidatedData.
Import JS Json.

Lemma is_digit_not_dash (c : ascii) :
  is_digit c = true -> Ascii.eqb c "-" = false.
Proof.
  intros H. destruct (Ascii.eqb_spec c "-") as [-> | _]; [discriminate H | reflexivity].
Qed.

Lemma digits_of_uint (d : Decimal.uint) :
  Spec.all_digits (DecimalString.NilEmpty.string_of_uint d) = true.
Proof. induction d; simpl; auto. Qed.

Lemma all_digits_not_date (s : string) :
  Spec.all_digits s = true -> Spec.iso_shape s = false.
Proof.
  intros H. unfold Spec.iso_shape.
  do 5 (destruct s as [|? s]; [reflexivity|];
        simpl in H; apply andb_true_iff in H; destruct H as [? H]).
  rewrite (is_digit_not_dash _ H4).
  rewrite !andb_false_r.
  repeat (destruct s as [|? s]; try reflexivity).
Qed.

Lemma dash_first_not_date (s : string) : Spec.iso_shape (String "-" s) = false.
Proof.
  unfold Spec.iso_shape.
  repeat (destruct s as [|? s]; try reflexivity).
Qed.

Lemma date_shape_chars (s : string) :
  Spec.iso_shape s = true -> Spec.date_chars s = true.
Proof.
  unfold Spec.iso_shape.
  do 10 (destruct s as [|? s]; [discriminate|]).
  destruct s; [|discriminate].
  intros H. do 9 (apply andb_true_iff in H; destruct H as [H ?]).
  cbn [Spec.date_chars].
  repeat match goal with
         | E : is_digit _ = true |- _ => rewrite E; clear E
         | E : Ascii.eqb _ _ = true |- _ => rewrite E; clear E
         end.
  now rewrite ?orb_true_r.
Qed.

Lemma date_chars_app (a b : string) :
  Spec.date_chars (a ++ b) = Spec.date_chars a && Spec.date_chars b.
Proof.
  induction a as [|c a IH]; simpl; [reflexivity|].
  now rewrite IH, andb_assoc.
Qed.

Lemma comma_not_date (a b : string) : Spec.iso_shape (a ++ "," ++ b) = false.
Proof.
  destruct (Spec.iso_shape (a ++ "," ++ b)) eqn:E; [|reflexivity].
  apply date_shape_chars in E. rewrite date_chars_app in E.
  apply andb_true_iff in E. destruct E as [_ E]. discriminate E.
Qed.

Lemma dot_not_date (a b : string) : Spec.iso_shape (a ++ "." ++ b) = false.
Proof.
  destruct (Spec.iso_shape (a ++ "." ++ b)) eqn:E; [|reflexivity].
  apply date_shape_chars in E. rewrite date_chars_app in E.
  apply andb_true_iff in E. destruct E as [_ E]. discriminate E.
Qed.

Lemma exponent_not_date (a b : string) : Spec.iso_shape (a ++ "e" ++ b) = false.
Proof.
  destruct (Spec.iso_shape (a ++ "e" ++ b)) eqn:E; [|reflexivity].
  apply date_shape_chars in E. rewrite date_chars_app in E.
  apply andb_true_iff in E. destruct E as [_ E]. discriminate E.
Qed.

Lemma all_digits_app (a b : string) :
  Spec.all_digits (a ++ b) = Spec.all_digits a && Spec.all_digits b.
Proof.
  induction a as [|c a IH]; simpl; [reflexivity|].
  now rewrite IH, andb_assoc.
Qed.

Lemma decimal_digits (n : N) : Spec.all_digits (decimal n) = true.
Proof.
  unfold decimal, DecimalString.NilZero.string_of_uint.
  destruct (N.to_uint n); try apply digits_of_uint. reflexivity.
Qed.

Lemma zeros_digits (n : nat) : Spec.all_digits (zeros n) = true.
Proof. induction n; simpl; auto. Qed.

Lemma drop_zeros_digits (s : string) :
  Spec.all_digits s = true -> Spec.all_digits (drop_zeros s) = true.
Proof.
  induction s as [|c s IH]; simpl; [reflexivity|].
  intros H. apply andb_true_iff in H. destruct H as [Hc Hs].
  specialize (IH Hs). destruct (drop_zeros s).
  - destruct (Ascii.eqb c "0"); simpl; [reflexivity | now rewrite Hc].
  - cbn [Spec.all_digits] in *. now rewrite Hc.
Qed.

(** No number is written in the shape of a date: its string is made of
    digits, with a sign in front at most, or holds a decimal point, an
    exponent mark or the name of an infinity. *)
Lemma number_not_date (n : number) : Spec.date_ok (VNum n) = false.
Proof.
  unfold Spec.date_ok. rewrite iso_date_re_shape. cbn [to_string].
  destruct n as [neg d e | neg]; [|now destruct neg].
  unfold number_to_string. destruct (d =? 0)%N; [reflexivity|].
  cbv zeta.
  destruct neg; [apply dash_first_not_date|]. cbn [append].
  repeat match goal with
         | |- context [if ?c then _ else _] => destruct c
         end.
  - apply all_digits_not_date. rewrite all_digits_app, zeros_digits, andb_true_r.
    apply drop_zeros_digits, decimal_digits.
  - apply dot_not_date.
  - apply (dot_not_date "0").
  - exact (exponent_not_date _ _).
  - exact (exponent_not_date _ _).
Qed.

Lemma to_string_items (x y : value) (l : list value) :
  to_string (VArr (x :: y :: l))
  = match x with VUndefined | VNull => "" | _ => to_string x end
    ++ "," ++ to_string (VArr (y :: l)).
Proof. reflexivity. Qed.

(** A value the date pattern accepts is a string, or a string wrapped
    in one-item arrays. *)
Lemma valid_date_plain (v : value) :
  Spec.date_ok v = true -> Spec.plain v = true.
Proof.
  induction v as [| |b| |s|items IH|] using value_ind'; try discriminate.
  - destruct b; discriminate.
  - intros H. now rewrite number_not_date in H.
  - reflexivity.
  - destruct items as [|x [|y l]].
    + discriminate.
    + inversion IH as [|? ? IHx _]; subst. intros H.
      apply plain_array. constructor; [|constructor].
      apply IHx. destruct x; try discriminate H; exact H.
    + unfold Spec.date_ok. rewrite iso_date_re_shape, to_string_items.
      now rewrite comma_not_date.
Qed.

Lemma plain_printable (v : value) : Spec.plain v = true -> printable v = true.
Proof.
  induction v as [| |b| |s|items IH|] using value_ind'; try discriminate;
    try reflexivity.
  intros H. apply plain_array in H. apply printable_array.
  rewrite Forall_forall in *. intros x Hx. apply IH; auto.
Qed.

Lemma allowed_window_plain (w : value) :
  Booking.set_has Booking.allowedWindows w = true -> Spec.plain w = true.
Proof. destruct w; try discriminate. reflexivity. Qed.

Lemma filter_nil_all {A : Type} (f : A -> bool) (l : list A) :
  filter f l = [] -> Forall (fun x => f x = false) l.
Proof.
  induction l as [|x l IH]; simpl; [constructor|].
  destruct (f x) eqn:E; [discriminate|]. intros H. constructor; auto.
Qed.

Lemma no_date_errors (v : value) :
  Spec.date_format v = [] ->
  Forall (fun x => Spec.plain x = true) (Spec.items_of v).
Proof.
  unfold Spec.date_format. intros H. apply map_eq_nil, filter_nil_all in H.
  eapply Forall_impl; [|exact H]. simpl. intros x Hx.
  apply valid_date_plain. now apply negb_false_iff.
Qed.

Lemma no_window_errors (v : value) :
  Spec.window_allowed v = [] ->
  Forall (fun x => Spec.plain x = true) (Spec.items_of v).
Proof.
  unfold Spec.window_allowed. intros H. apply map_eq_nil, filter_nil_all in H.
  eapply Forall_impl; [|exact H]. simpl. intros x Hx.
  apply allowed_window_plain. now apply negb_false_iff.
Qed.

Lemma sequence_present (v : value) (msg : string) :
  Spec.sequence_required v msg = [] -> exists items, v = VArr items.
Proof. destruct v; try discriminate. intros _. now eexists. Qed.

End ValidatedData.


(* ================================================================== *)
(** * The sequences through the file-based store *)
(* ================================================================== *)

Section RoundTrip.
Import JS Http.

Lemma map_rows_listed (rs : list Sqlite.Row) (out : list FileServer.Listed) :
  FileServer.map_rows FileServer.listed rs = Returns out ->
  forall e, In e out -> FileServer.listed (FileServer.row e) = Returns e.
Proof.
  revert out. induction rs as [|r rs IH]; simpl; intros out H.
  - injection H as <-. intros e [].
  - apply bind_returns in H. destruct H as (y & Hy & H).
    apply bind_returns in H. destruct H as (ys & Hys & H).
    injection H as <-. intros e [<- | He]; [|now apply (IH ys)].
    unfold FileServer.listed in Hy |- *.
    apply bind_returns in Hy. destruct Hy as (d & Hd & Hy).
    apply bind_returns in Hy. destruct Hy as (w & Hw & Hy).
    injection Hy as <-. cbn [FileServer.row]. now rewrite Hd, Hw.
Qed.

Lemma listing_entries (req : Request) (db : Sqlite.Store)
    (out : list FileServer.Listed) :
  fst (FileServer.get_admin_requests req db) = Returns (json (RequestsBody out)) ->
  forall e, In e out -> FileServer.listed (FileServer.row e) = Returns e.
Proof.
  unfold FileServer.get_admin_requests.
  destruct (call_trim _) as [st|]; [|discriminate].
  destruct (Sqlite.select_by_status db st) as [rs|]; [|discriminate].
  destruct (FileServer.map_rows FileServer.listed rs) as [out'|] eqn:E;
    [|discriminate].
  cbn [fst]. intros [= <-]. now apply (map_rows_listed rs).
Qed.

(** What an empty list of errors says about the two sequences. *)
Lemma validated_sequences (b : value) (v : Booking.Validation) :
  FileServer.validate b = Returns v ->
  Booking.errors v = [] ->
  Spec.plain (Booking.dates (Booking.preferences (Booking.cleaned v))) = true
  /\ Spec.plain (Booking.windows (Booking.preferences (Booking.cleaned v))) = true.
Proof.
  intros Hv He. destruct (FileServer_validate_collects b v Hv) as [Hp Herr].
  rewrite He in Herr. symmetry in Herr.
  apply app_eq_nil in Herr. destruct Herr as [Hd Herr].
  apply app_eq_nil in Herr. destruct Herr as [Hw Herr].
  apply app_eq_nil in Herr. destruct Herr as [Hdf Herr].
  apply app_eq_nil in Herr. destruct Herr as [Hwf _].
  rewrite Hp. cbn [Booking.dates Booking.windows].
  apply sequence_present in Hd, Hw.
  destruct Hd as [ds Hd], Hw as [ws Hw].
  apply no_date_errors in Hdf. apply no_window_errors in Hwf.
  rewrite Hd in *. rewrite Hw in *.
  split; now apply plain_array.
Qed.

Lemma listed_row (r : Sqlite.Row) (e : FileServer.Listed) :
  FileServer.listed r = Returns e -> FileServer.row e = r.
Proof.
  unfold FileServer.listed. intros H.
  apply bind_returns in H. destruct H as (d & _ & H).
  apply bind_returns in H. destruct H as (w & _ & H).
  now injection H as <-.
Qed.

(** Rows whose two texts can be read are mapped to as many entries. *)
Lemma map_rows_readable (rs : list Sqlite.Row) :
  (forall r, In r rs -> exists e, FileServer.listed r = Returns e) ->
  exists out,
    FileServer.map_rows FileServer.listed rs = Returns out
    /\ map FileServer.row out = rs.
Proof.
  induction rs as [|r rs IH]; intros Hall.
  - exists []. split; reflexivity.
  - destruct IH as (out & Hout & Hmap); [intros x Hx; apply Hall; now right|].
    destruct (Hall r (or_introl eq_refl)) as [e He].
    exists (e :: out). cbn [FileServer.map_rows]. rewrite He, Hout. cbn [bind].
    split; [reflexivity|]. cbn [map]. now rewrite Hmap, (listed_row r e He).
Qed.

Lemma select_subset (db : Sqlite.Store) (st : string) (rs : list Sqlite.Row) :
  Sqlite.select_by_status db st = Returns rs ->
  forall r, In r rs -> In r (Sqlite.rows db) /\ Sqlite.status r = st.
Proof.
  unfold Sqlite.select_by_status. destruct (Sqlite.fault db); [discriminate|].
  intros H r Hr. apply Returns_inj in H. subst rs. apply firstn_subset in Hr.
  apply (Permutation_in _ (order_by_desc_perm Sqlite.created_at _)) in Hr.
  apply filter_In in Hr. destruct Hr as [Hr Hs].
  split; [exact Hr | now apply String.eqb_eq].
Qed.

(** The listing of a reachable store whose rows of the status asked for
    can be read. *)
Lemma file_listing_readable (req : Request) (db : Sqlite.Store) (st : string) :
  (forall r, In r (Sqlite.rows db) -> Sqlite.status r = st ->
             exists e, FileServer.listed r = Returns e) ->
  Sqlite.fault db = None ->
  call_trim (or_else (opt_get (query req) "status") (VStr "requested")) = Returns st ->
  exists out,
    FileServer.get_admin_requests req db = (Returns (json (RequestsBody out)), db)
    /\ map FileServer.row out
       = firstn 500
           (Sql.order_by_desc Sqlite.created_at
              (filter (fun r => String.eqb (Sqlite.status r) st) (Sqlite.rows db)))
    /\ forall e, In e out -> FileServer.listed (FileServer.row e) = Returns e.
Proof.
  intros Hrows Hf Hst. unfold FileServer.get_admin_requests. rewrite Hst.
  destruct (Sqlite.select_by_status db st) as [rs|e] eqn:Hsel.
  2:{ unfold Sqlite.select_by_status in Hsel. rewrite Hf in Hsel. discriminate. }
  destruct (map_rows_readable rs) as (out & Hout & Hmap).
  { intros r Hr. destruct (select_subset db st rs Hsel r Hr). now apply Hrows. }
  rewrite Hout. exists out. split; [reflexivity|]. split.
  - rewrite Hmap. unfold Sqlite.select_by_status in Hsel. rewrite Hf in Hsel.
    apply Returns_inj in Hsel. now subst rs.
  - now apply (map_rows_listed rs).
Qed.

(** The status a listing of the file-based server asks for when the
    query names none, or names requested. *)
Lemma default_status (q : value) :
  truthy q = false \/ (exists s, q = VStr s /\ trim s = "requested") ->
  call_trim (or_else q (VStr "requested")) = Returns "requested".
Proof.
  unfold or_else. intros [-> | (s & -> & Hs)]; [reflexivity|].
  destruct s as [|c s]; [discriminate Hs|]. cbn [truthy String.eqb negb call_trim].
  now rewrite Hs.
Qed.

(** C9.  For a submission the file-based validator accepts, with the
    store in reach: the insert stores the JSON text of the two sequences
    of the normalized record in a new row with the status requested, and
    reading that text back gives the two sequences themselves.  The
    listing then returns them: when the requested rows the store held
    can be read and are fewer than 500, every listing that names no
    status, or names requested, is answered 200 and shows the new row
    with the two sequences of the normalized record, element for element
    and in order; and whatever listing shows the row shows it with these
    sequences. *)
Theorem C9_sequences_round_trip
    (req : Request) (db : Sqlite.Store) (v : Booking.Validation) :
  FileServer.validate (body req) = Returns v ->
  Booking.errors v = [] ->
  Sqlite.fault db = None ->
  let ds := Booking.dates (Booking.preferences (Booking.cleaned v)) in
  let ws := Booking.windows (Booking.preferences (Booking.cleaned v)) in
  exists r,
    Json.stringify ds = Some (Sqlite.preferred_dates_json r)
    /\ Json.stringify ws = Some (Sqlite.preferred_windows_json r)
    /\ Json.parse (Sqlite.preferred_dates_json r) = Returns ds
    /\ Json.parse (Sqlite.preferred_windows_json r) = Returns ws
    /\ Sqlite.status r = "requested"
    /\ FileServer.post_booking_request req db
       = (Returns (json (RequestIdBody (Sqlite.id r))),
          {| Sqlite.rows := Sqlite.rows db ++ [r];
             Sqlite.next_id := (Sqlite.next_id db + 1)%Z;
             Sqlite.now := Sqlite.now db;
             Sqlite.fault := Sqlite.fault db |})
    /\ FileServer.listed r
       = Returns {| FileServer.row := r;
                    FileServer.preferred_dates := ds;
                    FileServer.preferred_windows := ws |}
    /\ (forall req2,
          (let q := opt_get (query req2) "status" in
           truthy q = false \/ exists s, q = VStr s /\ trim s = "requested") ->
          (forall x, In x (Sqlite.rows db) -> Sqlite.status x = "requested" ->
                     exists e, FileServer.listed x = Returns e) ->
          length (filter (fun x => String.eqb (Sqlite.status x) "requested")
                    (Sqlite.rows db)) < 500 ->
          exists out,
            FileServer.get_admin_requests req2
              (snd (FileServer.post_booking_request req db))
            = (Returns (json (RequestsBody out)),
               snd (FileServer.post_booking_request req db))
            /\ In {| FileServer.row := r;
                     FileServer.preferred_dates := ds;
                     FileServer.preferred_windows := ws |} out)
    /\ forall req' db' out e,
         fst (FileServer.get_admin_requests req' db')
         = Returns (json (RequestsBody out)) ->
         In e out -> FileServer.row e = r ->
         FileServer.preferred_dates e = ds /\ FileServer.preferred_windows e = ws.
Proof.
  intros Hv He Hf ds ws.
  destruct (validated_sequences _ _ Hv He) as [Hpd Hpw].
  destruct (parse_stringify _ Hpd) as (dj & Hdj & Hdp).
  destruct (parse_stringify _ Hpw) as (wj & Hwj & Hwp).
  fold ds in Hdj, Hdp. fold ws in Hwj, Hwp.
  unfold FileServer.post_booking_request. rewrite Hv, He. cbn [length Nat.eqb negb].
  unfold Sqlite.insert. rewrite Hf. fold ds ws. rewrite Hdj, Hwj.
  set (c := Booking.cleaned v).
  set (r := {| Sqlite.id := Sqlite.next_id db; Sqlite.created_at := Sqlite.now db;
               Sqlite.preferred_dates_json := dj;
               Sqlite.preferred_windows_json := wj;
               Sqlite.name := Booking.name (Booking.customer c);
               Sqlite.phone := Booking.phone (Booking.customer c);
               Sqlite.email := Booking.email (Booking.customer c);
               Sqlite.line1 := Booking.line1 (Booking.address c);
               Sqlite.line2 := Booking.line2 (Booking.address c);
               Sqlite.city := Booking.city (Booking.address c);
               Sqlite.state := Booking.state (Booking.address c);
               Sqlite.zip := Booking.zip (Booking.address c);
               Sqlite.notes := Booking.notes c;
               Sqlite.status := "requested" |}).
  exists r.
  split; [reflexivity|]. split; [reflexivity|].
  cbn [Sqlite.preferred_dates_json Sqlite.preferred_windows_json Sqlite.status
       Sqlite.id r].
  split; [exact Hdp|]. split; [exact Hwp|]. split; [reflexivity|].
  split; [reflexivity|].
  assert (Hl : forall r,
             Sqlite.preferred_dates_json r = dj ->
             Sqlite.preferred_windows_json r = wj ->
             FileServer.listed r
             = Returns {| FileServer.row := r;
                          FileServer.preferred_dates := ds;
                          FileServer.preferred_windows := ws |}).
  { intros r0 Hd Hw. unfold FileServer.listed. now rewrite Hd, Hw, Hdp, Hwp. }
  split; [now apply Hl|]. split.
  - intros req2 Hq Hread Hlen. cbn [snd].
    set (db' := {| Sqlite.rows := Sqlite.rows db ++ [r];
                   Sqlite.next_id := (Sqlite.next_id db + 1)%Z;
                   Sqlite.now := Sqlite.now db;
                   Sqlite.fault := None |}).
    destruct (file_listing_readable req2 db' "requested") as (out & Hres & Hmap & Hle).
    + intros x Hx Hs. cbn [Sqlite.rows db'] in Hx. apply in_app_or in Hx.
      destruct Hx as [Hx | [<- | []]]; [now apply Hread|].
      eexists. now apply Hl.
    + reflexivity.
    + now apply default_status.
    + exists out. split; [exact Hres|].
      assert (Hin : In r (map FileServer.row out)).
      { rewrite Hmap. cbn [Sqlite.rows db']. rewrite filter_app. cbn [filter].
        change (Sqlite.status r =? "requested") with true. cbv iota.
        rewrite firstn_all2.
        - apply (Permutation_in _
                   (Permutation_sym (order_by_desc_perm Sqlite.created_at _))).
          apply in_or_app. right. now left.
        - rewrite (Permutation_length (order_by_desc_perm Sqlite.created_at _)).
          rewrite length_app. cbn [length]. lia. }
      apply in_map_iff in Hin. destruct Hin as (e & Hrow & Hin).
      pose proof (Hle e Hin) as He'. rewrite Hrow, Hl in He' by reflexivity.
      apply Returns_inj in He'. now rewrite He'.
  - intros req' db' out e Hout Hin Hrow.
    pose proof (listing_entries req' db' out Hout e Hin) as Hle.
    rewrite Hrow, Hl in Hle by reflexivity.
    injection Hle as <-. split; reflexivity.
Qed.

Lemma C9_witness :
  exists r,
    Json.stringify (VArr [VStr "2025-03-01"]) = Some (Sqlite.preferred_dates_json r)
    /\ Json.stringify (VArr [VStr "morning"]) = Some (Sqlite.preferred_windows_json r)
    /\ Json.parse (Sqlite.preferred_dates_json r) = Returns (VArr [VStr "2025-03-01"])
    /\ Json.parse (Sqlite.preferred_windows_json r) = Returns (VArr [VStr "morning"])
    /\ Sqlite.status r = "requested"
    /\ FileServer.post_booking_request
         (Examples.submission Examples.jane_of_utah) Examples.empty_file
       = (Returns (json (RequestIdBody (Sqlite.id r))),
          {| Sqlite.rows := [r]; Sqlite.next_id := 2; Sqlite.now := 1000;
             Sqlite.fault := None |})
    /\ exists out,
         FileServer.get_admin_requests (Examples.anonymous_request (VObj []))
           Examples.after_jane
         = (Returns (json (RequestsBody out)), Examples.after_jane)
         /\ In {| FileServer.row := r;
                  FileServer.preferred_dates := VArr [VStr "2025-03-01"];
                  FileServer.preferred_windows := VArr [VStr "morning"] |} out.
Proof.
  destruct (C9_sequences_round_trip
              (Examples.submission Examples.jane_of_utah) Examples.empty_file
              _ eq_refl eq_refl eq_refl)
    as (r & H1 & H2 & H3 & H4 & H5 & H6 & _ & H7 & _).
  exists r. repeat (split; [assumption|]).
  apply (H7 (Examples.anonymous_request (VObj []))).
  - left. reflexivity.
  - intros x [].
  - cbn. lia.
Defined.

End RoundTrip.

(* ================================================================== *)
(** * Further properties of the validator *)
(* ================================================================== *)

Lemma validateBooking_fields (body : value) (v : Validation) :
  Server.validateBooking body = Returns v ->
  trimmed (opt_get (opt_get body "customer") "name")
  = Returns (name (customer (cleaned v)))
  /\ normalizePhone (or_else (opt_get (opt_get body "customer") "phone") (VStr ""))
     = Returns (phone (customer (cleaned v)))
  /\ trimmed (opt_get (opt_get body "address") "line1")
     = Returns (line1 (address (cleaned v)))
  /\ trimmed (opt_get (opt_get body "address") "city")
     = Returns (city (address (cleaned v)))
  /\ trimmed (opt_get (opt_get body "address") "zip")
     = Returns (zip (address (cleaned v))).
Proof.
  unfold Server.validateBooking. intros H. step_binds H.
  injection H as <-. cbn [cleaned customer address name phone line1 city zip].
  repeat split; assumption.
Qed.

(** X1.  Whenever every text field of a submission is absent, otherwise
    falsy, or a string, and a string can be made of the phone and of
    every item of the dates and of the windows, the validator of
    server/server.js returns; the name, street, city and ZIP of its
    record are the trimmed fields and the phone is the normalized one;
    and the errors it returns are all the violations, rule by rule and
    in the order of the rules: nothing is dropped after the first. *)
Theorem all_violations_collected (body : value) :
  Spec.text_fields body ->
  Spec.coercible body ->
  exists v,
    Server.validateBooking body = Returns v
    /\ errors v = Spec.violations "Select at least 1 preferred day." body (cleaned v)
    /\ trimmed (opt_get (opt_get body "customer") "name")
       = Returns (name (customer (cleaned v)))
    /\ normalizePhone (or_else (opt_get (opt_get body "customer") "phone") (VStr ""))
       = Returns (phone (customer (cleaned v)))
    /\ trimmed (opt_get (opt_get body "address") "line1")
       = Returns (line1 (address (cleaned v)))
    /\ trimmed (opt_get (opt_get body "address") "city")
       = Returns (city (address (cleaned v)))
    /\ trimmed (opt_get (opt_get body "address") "zip")
       = Returns (zip (address (cleaned v))).
Proof.
  intros Ht Hc. destruct (validateBooking_returns body Ht Hc) as [v Hv].
  exists v. split; [exact Hv|]. split; [now apply validateBooking_collects|].
  now apply validateBooking_fields.
Qed.

Lemma all_violations_collected_witness :
  exists v,
    Server.validateBooking Examples.four_violations = Returns v
    /\ errors v =
       ["Select at least 1 preferred day."; "Invalid window: noon";
        "Name is required."; "Phone is required."].
Proof.
  destruct (all_violations_collected Examples.four_violations)
    as (v & Hv & He & _).
  - unfold Spec.text_fields, Spec.text_like. simpl.
    repeat split; first [left; reflexivity | right; eexists; reflexivity].
  - unfold Spec.coercible. simpl. repeat constructor.
  - exists v. split; [exact Hv|]. rewrite He.
    vm_compute in Hv. injection Hv as <-. reflexivity.
Defined.

(** The valid submission of the specification passes the validator
    of server/server.js with no error; its phone is kept as the digits
    5551234567 and its state is filled in as UT. *)
Theorem valid_submission_accepted :
  exists v,
    Server.validateBooking Examples.jane = Returns v
    /\ errors v = []
    /\ phone (customer (cleaned v)) = "5551234567"
    /\ state (address (cleaned v)) = "UT"
    /\ dates (preferences (cleaned v)) = VArr [VStr "2025-03-01"]
    /\ windows (preferences (cleaned v)) = VArr [VStr "morning"].
Proof. eexists. repeat split. Qed.

(** X3.  A submission whose dates are missing, are no array, or are an
    empty array is refused by the validator of server/server.js with
    the message that asks for a day, whenever the validator returns. *)
Theorem missing_dates_reported (body : value) (v : Validation) :
  Server.validateBooking body = Returns v ->
  (forall x l, opt_get (opt_get body "preferences") "dates" <> VArr (x :: l)) ->
  In "Select at least 1 preferred day." (errors v).
Proof.
  intros Hv Hd. rewrite (validateBooking_collects _ _ Hv).
  unfold Spec.violations. apply in_or_app. left.
  destruct (opt_get (opt_get body "preferences") "dates") as [| | | | |[|x l]|];
    try (now left).
  now contradiction (Hd x l).
Qed.

Lemma missing_dates_reported_witness :
  In "Select at least 1 preferred day."
    ["Select at least 1 preferred day."; "Invalid window: noon";
     "Name is required."; "Phone is required."].
Proof.
  apply (missing_dates_reported Examples.four_violations _ eq_refl).
  intros x l. discriminate.
Defined.

(** X4.  A window of the submitted sequence that is not exactly one of
    morning, afternoon and evening is reported by a message that names
    it, whenever the validator of server/server.js returns: a string
    has then been made of the window, and the message ends with it. *)
Theorem disallowed_window_reported
    (body : value) (v : Validation) (items : list value) (w : value) :
  Server.validateBooking body = Returns v ->
  opt_get (opt_get body "preferences") "windows" = VArr items ->
  In w items ->
  set_has allowedWindows w = false ->
  exists t,
    ToString w = Returns t
    /\ t = to_string w
    /\ In ("Invalid window: " ++ t) (errors v).
Proof.
  intros Hv Hw Hin Hbad.
  destruct (validateBooking_coercible _ _ Hv) as (_ & Hpw & _).
  rewrite Hw in Hpw. cbn [Spec.items_of] in Hpw.
  rewrite Forall_forall in Hpw.
  exists (to_string w). split; [now apply ToString_printable, Hpw|].
  split; [reflexivity|].
  rewrite (validateBooking_collects _ _ Hv).
  unfold Spec.violations. rewrite Hw.
  do 3 (apply in_or_app; right). apply in_or_app. left.
  unfold Spec.window_allowed. apply in_map_iff. exists w.
  split; [reflexivity|]. apply filter_In. cbn [Spec.items_of].
  split; [assumption | now rewrite Hbad].
Qed.

Lemma disallowed_window_reported_witness :
  exists t,
    ToString (VNum (Finite false 1 21)) = Returns t
    /\ t = "1e+21"
    /\ In ("Invalid window: " ++ t)
         ["Invalid window: 1e+21"; "Invalid window: 1.5"].
Proof.
  exact (disallowed_window_reported Examples.odd_windows _ _
           (VNum (Finite false 1 21))
           eq_refl eq_refl (or_intror (or_introl eq_refl)) eq_refl).
Defined.

(** X5.  While the store rejects every statement, a listing that passes
    the guard, and an update that passes the guard with an allowed
    status, are answered 500 with the store's message (or the route's
    own when the message is empty), and the store is left as it was. *)
Theorem store_failure_answers_500
    (env : Http.Env) (req : Http.Request) (db : Pg.Store) (msg : string) :
  Spec.authorized env req ->
  Pg.fault db = Some msg ->
  (forall s,
     ToString (or_else (opt_get (Http.query req) "status") (VStr "requested"))
     = Returns s ->
     Server.get_admin_requests env req db
     = (Returns
          (Http.status_json 500
             (Http.ErrorBody (if msg =? "" then "Database read failed" else msg))),
        db))
  /\ (forall s,
        ToString (or_else (opt_get (Http.body req) "status") (VStr "")) = Returns s ->
        In (trim s) Server.allowed ->
        Server.patch_admin_request env req db
        = (Returns
             (Http.status_json 500
                (Http.ErrorBody
                   (if msg =? "" then "Database update failed" else msg))),
           db))
  /\ (opt_get (Http.query req) "status" = VUndefined
      \/ (exists s, opt_get (Http.query req) "status" = VStr s) ->
      exists s,
        ToString (or_else (opt_get (Http.query req) "status") (VStr "requested"))
        = Returns s).
Proof.
  intros Hauth Hf.
  unfold Server.get_admin_requests, Server.patch_admin_request.
  rewrite !(requireAdmin_authorized _ _ _ _ Hauth). split; [|split].
  - intros s Hs. unfold Server.list_requests, Pg.select_by_status.
    now rewrite Hs, Hf.
  - intros s Hs Ha. apply allowed_has in Ha.
    unfold Server.update_request, Pg.update_status. now rewrite Hs, Ha, Hf.
  - intros [-> | [s ->]]; [now eexists|].
    unfold or_else. destruct (truthy (VStr s)); now eexists.
Qed.

Lemma store_failure_answers_500_witness :
  Server.get_admin_requests Examples.secret
    (Examples.admin_request "s3cret" (VObj []) "1" VUndefined)
    Examples.unreachable
  = (Returns (Http.status_json 500 (Http.ErrorBody "connect ECONNREFUSED")),
     Examples.unreachable).
Proof.
  refine (proj1 (store_failure_answers_500 Examples.secret
                   (Examples.admin_request "s3cret" (VObj []) "1" VUndefined)
                   Examples.unreachable "connect ECONNREFUSED" _ eq_refl)
            "requested" eq_refl).
  exists "s3cret". repeat split. discriminate.
Defined.


(* ================================================================== *)
(** * The normalized record and the accepted submissions *)
(* ================================================================== *)

Lemma trim_start_opens (s : string) : Spec.starts_with_space (trim_start s) = false.
Proof.
  induction s as [|c s IH]; simpl; [reflexivity|].
  destruct (is_space c) eqn:E; [exact IH | simpl; exact E].
Qed.

Lemma trim_end_closes (s : string) : Spec.ends_with_space (trim_end s) = false.
Proof.
  induction s as [|c s IH]; simpl; [reflexivity|].
  destruct (trim_end s) as [|d t] eqn:E.
  - destruct (is_space c) eqn:Ec; simpl; [reflexivity | exact Ec].
  - exact IH.
Qed.

Lemma trim_end_keeps_start (s : string) :
  Spec.starts_with_space s = false -> Spec.starts_with_space (trim_end s) = false.
Proof.
  destruct s as [|c s]; simpl; [reflexivity|]. intros Hc.
  destruct (trim_end s); [rewrite Hc|]; simpl; exact Hc.
Qed.

Lemma trim_outer_trimmed (s : string) : Spec.outer_trimmed (trim s).
Proof.
  unfold Spec.outer_trimmed, trim. split.
  - apply trim_end_keeps_start, trim_start_opens.
  - apply trim_end_closes.
Qed.

Lemma trimmed_is_trim (x : value) (s : string) :
  trimmed x = Returns s -> exists t, s = trim t.
Proof.
  unfold trimmed, call_trim. destruct (or_else x (VStr "")); try discriminate.
  intros [= <-]. now eexists.
Qed.

Lemma trimmed_outer (x : value) (s : string) :
  trimmed x = Returns s -> Spec.outer_trimmed s.
Proof.
  intros H. apply trimmed_is_trim in H. destruct H as [t ->].
  apply trim_outer_trimmed.
Qed.

Lemma trimmed_text (x : value) (s : string) :
  trimmed x = Returns s -> Spec.text_like x.
Proof.
  unfold trimmed, call_trim, or_else, Spec.text_like.
  destruct (truthy x) eqn:E; [|now left].
  destruct x; try discriminate. intros _. right. now eexists.
Qed.

Lemma trimmed_throws (x : value) (e : exn) :
  trimmed x = Throws e -> e = TypeError "trim is not a function".
Proof.
  unfold trimmed, call_trim. destruct (or_else x (VStr "")); try discriminate;
    now intros [= <-].
Qed.

Lemma or_null_optional (s : string) :
  Spec.outer_trimmed s -> Spec.optional_text (or_null s).
Proof.
  unfold or_null, Spec.optional_text. intros Hs.
  destruct (s =? "") eqn:E; [exact I|].
  split; [|exact Hs]. intros ->. discriminate E.
Qed.

Lemma normalizePhone_digits (x : value) (p : string) :
  normalizePhone x = Returns p -> Spec.all_digits p = true.
Proof.
  intros H. apply normalizePhone_returns in H. destruct H as [_ ->].
  apply keep_digits_all_digits.
Qed.

Lemma normalizePhone_throws (x : value) (e : exn) :
  normalizePhone x = Throws e ->
  e = TypeError "Cannot convert object to primitive value".
Proof.
  unfold normalizePhone, ToString.
  destruct (printable _); cbn [bind]; [discriminate | now intros [= <-]].
Qed.

Lemma required_nil (field msg : string) :
  Spec.required field msg = [] -> field <> "".
Proof.
  unfold Spec.required. destruct (field =? "") eqn:E; [discriminate|].
  intros _ ->. discriminate E.
Qed.

Lemma date_ok_accepted (d : value) :
  Spec.date_ok d = true -> isValidISODate d = Returns true.
Proof.
  intros H. apply isValidISODate_returns. split; [|now rewrite H].
  now apply plain_printable, valid_date_plain.
Qed.

Lemma no_errors_valid_dates (x : value) :
  Spec.date_format x = [] ->
  Forall (fun d => isValidISODate d = Returns true) (Spec.items_of x).
Proof.
  unfold Spec.date_format. intros H. apply map_eq_nil, filter_nil_all in H.
  eapply Forall_impl; [|exact H]. simpl. intros d Hd.
  now apply date_ok_accepted, negb_false_iff.
Qed.

Lemma no_errors_allowed_windows (x : value) :
  Spec.window_allowed x = [] ->
  Forall (fun w => set_has allowedWindows w = true) (Spec.items_of x).
Proof.
  unfold Spec.window_allowed. intros H. apply map_eq_nil, filter_nil_all in H.
  eapply Forall_impl; [|exact H]. simpl. intros d Hd. now apply negb_false_iff.
Qed.

Lemma sequence_filled (x : value) (msg : string) :
  Spec.sequence_required x msg = [] -> Spec.filled_array x.
Proof.
  destruct x as [| | | | |[|y l]|]; try discriminate. intros _. now exists y, l.
Qed.

Lemma validateBooking_preferences (body : value) (v : Validation) :
  Server.validateBooking body = Returns v ->
  preferences (cleaned v)
  = {| dates := or_else (opt_get (opt_get body "preferences") "dates") (VArr []);
       windows := or_else (opt_get (opt_get body "preferences") "windows") (VArr []) |}.
Proof.
  unfold Server.validateBooking. intros H. step_binds H.
  injection H as <-. reflexivity.
Qed.

Lemma validateBooking_state (body : value) (v : Validation) :
  Server.validateBooking body = Returns v ->
  state (address (cleaned v)) <> "" /\ Spec.outer_trimmed (state (address (cleaned v))).
Proof.
  unfold Server.validateBooking. intros H. step_binds H.
  injection H as <-. cbn [cleaned address state].
  match goal with
  | E : trimmed (opt_get (opt_get body "address") "state") = Returns ?s |- _ =>
      apply trimmed_outer in E; destruct (s =? "") eqn:Es
  end.
  - split; [discriminate | split; reflexivity].
  - split; [|assumption]. intros ->. discriminate Es.
Qed.

Lemma accepted_well_formed (body : value) (v : Validation) :
  Server.validateBooking body = Returns v ->
  errors v = [] ->
  let c := cleaned v in
  Spec.filled_array (dates (preferences c))
  /\ Forall (fun d => isValidISODate d = Returns true)
       (Spec.items_of (dates (preferences c)))
  /\ Spec.filled_array (windows (preferences c))
  /\ Forall (fun w => exists s, w = VStr s /\ In s allowedWindows)
       (Spec.items_of (windows (preferences c)))
  /\ name (customer c) <> "" /\ line1 (address c) <> ""
  /\ city (address c) <> "" /\ zip (address c) <> ""
  /\ state (address c) <> ""
  /\ phone (customer c) <> "" /\ Spec.all_digits (phone (customer c)) = true.
Proof.
  intros Hv He c. subst c.
  pose proof (validateBooking_collects _ _ Hv) as Hc.
  pose proof (validateBooking_preferences _ _ Hv) as Hp.
  pose proof (validateBooking_fields _ _ Hv) as (_ & Hph & _).
  pose proof (validateBooking_state _ _ Hv) as [Hst _].
  rewrite He in Hc. symmetry in Hc. unfold Spec.violations in Hc.
  repeat (apply app_eq_nil in Hc;
          let H := fresh "Hr" in destruct Hc as [H Hc]).
  apply sequence_filled in Hr, Hr0.
  apply no_errors_valid_dates in Hr1. apply no_errors_allowed_windows in Hr2.
  apply required_nil in Hr3, Hr4, Hr5, Hr6, Hc.
  rewrite Hp. cbn [dates windows].
  destruct Hr as (x & l & Hd), Hr0 as (w & l' & Hw).
  rewrite Hd in *. rewrite Hw in *. cbn [or_else truthy].
  split; [now exists x, l|]. split; [exact Hr1|].
  split; [now exists w, l'|]. split.
  { eapply Forall_impl; [|exact Hr2]. intros a Ha.
    destruct a; try discriminate Ha. eexists. split; [reflexivity|].
    simpl in Ha. simpl. rewrite !orb_true_iff, !String.eqb_eq in Ha.
    intuition congruence. }
  repeat (split; [assumption|]). exact (normalizePhone_digits _ _ Hph).
Qed.

(** X2.  A submission that validateBooking answers with no error has
    what the data model asks for: both sequences of the record are
    non-empty arrays, every date of the first passes the date pattern
    and every window of the second is one of the three strings; name,
    street, city, ZIP and state are non-empty, and the phone is a
    non-empty string of digits. *)
Theorem accepted_submission_well_formed (body : value) (v : Validation) :
  Server.validateBooking body = Returns v ->
  errors v = [] ->
  let c := cleaned v in
  Spec.filled_array (dates (preferences c))
  /\ Forall (fun d => isValidISODate d = Returns true)
       (Spec.items_of (dates (preferences c)))
  /\ Spec.filled_array (windows (preferences c))
  /\ Forall (fun w => exists s, w = VStr s /\ In s allowedWindows)
       (Spec.items_of (windows (preferences c)))
  /\ name (customer c) <> "" /\ line1 (address c) <> ""
  /\ city (address c) <> "" /\ zip (address c) <> ""
  /\ state (address c) <> ""
  /\ phone (customer c) <> "" /\ Spec.all_digits (phone (customer c)) = true.
Proof. exact (accepted_well_formed body v). Qed.

Lemma accepted_submission_well_formed_witness :
  Forall (fun d => isValidISODate d = Returns true) [VStr "2025-03-01"]
  /\ Spec.all_digits "5551234567" = true.
Proof.
  destruct (accepted_submission_well_formed Examples.jane _ eq_refl eq_refl)
    as (_ & Hd & _ & _ & _ & _ & _ & _ & _ & _ & Hp).
  split; [exact Hd | exact Hp].
Defined.

(** X6.  Whatever the submission, the record validateBooking returns is
    normalized: name, street, city, ZIP and state carry no white space
    at either end; the state is never empty; the optional email, second
    address line and notes are absent or non-empty with no white space
    around them; and the phone holds digits only. *)
Theorem cleaned_record_normalized (body : value) (v : Validation) :
  Server.validateBooking body = Returns v ->
  let c := cleaned v in
  Spec.outer_trimmed (name (customer c))
  /\ Spec.outer_trimmed (line1 (address c))
  /\ Spec.outer_trimmed (city (address c))
  /\ Spec.outer_trimmed (zip (address c))
  /\ Spec.outer_trimmed (state (address c))
  /\ state (address c) <> ""
  /\ Spec.optional_text (email (customer c))
  /\ Spec.optional_text (line2 (address c))
  /\ Spec.optional_text (notes c)
  /\ Spec.all_digits (phone (customer c)) = true.
Proof.
  intros Hv c. subst c.
  pose proof (validateBooking_state _ _ Hv) as [Hne Hst].
  unfold Server.validateBooking in Hv. step_binds Hv.
  injection Hv as <-.
  cbn [cleaned customer address name phone email line1 line2 city zip state notes]
    in *.
  repeat match goal with
         | E : trimmed _ = Returns _ |- _ => apply trimmed_outer in E
         end.
  repeat (split; [first [assumption | now apply or_null_optional]|]).
  match goal with
  | E : normalizePhone _ = Returns _ |- _ => exact (normalizePhone_digits _ _ E)
  end.
Qed.

Lemma cleaned_record_normalized_witness :
  Spec.outer_trimmed "Jane Doe" /\ Spec.optional_text None.
Proof.
  destruct (cleaned_record_normalized Examples.jane _ eq_refl)
    as (Hn & _ & _ & _ & _ & _ & He & _).
  split; [exact Hn | exact He].
Defined.

(** X7.  validateBooking returns exactly for the submissions whose text
    fields (name, email, the two address lines, city, state, ZIP and
    notes) are each absent, otherwise falsy, or a string, and whose
    phone, dates and windows hold nothing that cannot be made a string
    of; for every other submission it throws a TypeError and returns
    nothing. *)
Theorem validator_returns_or_throws (body : value) :
  (Spec.text_fields body /\ Spec.coercible body
   <-> exists v, Server.validateBooking body = Returns v)
  /\ ((exists v, Server.validateBooking body = Returns v)
      \/ exists msg, Server.validateBooking body = Throws (TypeError msg)).
Proof.
  split; [split|].
  - intros [Ht Hc]. now apply validateBooking_returns.
  - intros [v Hv]. split; [|now apply (validateBooking_coercible body v)].
    unfold Server.validateBooking in Hv. step_binds Hv.
    unfold Spec.text_fields.
    repeat match goal with
           | E : trimmed _ = Returns _ |- _ => apply trimmed_text in E
           end.
    repeat split; assumption.
  - unfold Server.validateBooking. cbv zeta.
    repeat match goal with
           | |- _ \/ (exists msg, bind ?m _ = _) =>
               let E := fresh "E" in
               destruct m as [?|e] eqn:E; cbn [bind];
               [|right;
                 first [apply trimmed_throws in E
                       | apply normalizePhone_throws in E
                       | apply check_dates_throws in E; destruct E as [E _]
                       | apply check_windows_throws in E; destruct E as [E _]];
                 subst e; now eexists]
           end.
    left. now eexists.
Qed.

Lemma date_ok_wraps (v : value) :
  Spec.date_ok v = true <-> exists s, Spec.wraps v s /\ Spec.iso_shape s = true.
Proof.
  split.
  - induction v as [| |b| |s|items IH|] using value_ind'; try discriminate.
    + destruct b; discriminate.
    + intros H. now rewrite number_not_date in H.
    + intros H. exists s. split; [constructor|].
      unfold Spec.date_ok in H. now rewrite iso_date_re_shape in H.
    + destruct items as [|x [|y l]].
      * discriminate.
      * inversion IH as [|? ? IHx _]; subst. intros H.
        destruct IHx as (s & Hw & Hs).
        { destruct x; try discriminate H; exact H. }
        exists s. split; [now constructor | exact Hs].
      * unfold Spec.date_ok. rewrite iso_date_re_shape, to_string_items.
        now rewrite comma_not_date.
  - intros (s & Hw & Hs). induction Hw as [s | x s Hw IH].
    + unfold Spec.date_ok. now rewrite iso_date_re_shape.
    + specialize (IH Hs). destruct Hw; exact IH.
Qed.

(** X8.  The date check accepts a value exactly when it is a string of
    the shape YYYY-MM-DD or such a string inside any number of one-item
    arrays: the pattern is tested against the value's string form, so
    [["2025-03-01"]] passes as "2025-03-01" does, while numbers,
    booleans, null, objects and longer arrays never pass. *)
Theorem date_accepted_iff_wrapped_string (v : value) :
  isValidISODate v = Returns true <->
  exists s, Spec.wraps v s /\ Spec.iso_shape s = true.
Proof.
  rewrite <- date_ok_wraps. split.
  - intros H. apply isValidISODate_returns in H. now destruct H as [_ <-].
  - apply date_ok_accepted.
Qed.


(* ================================================================== *)
(** * The administrative routes composed *)
(* ================================================================== *)

Section AdminComposition.
Import Http.

Lemma listing_answer (env : Env) (req : Request) (db db2 : Pg.Store)
    (rs : list Pg.Row) :
  Server.get_admin_requests env req db = (Returns (json (RequestsBody rs)), db2) ->
  db2 = db
  /\ Pg.fault db = None
  /\ printable (or_else (opt_get (query req) "status") (VStr "requested")) = true
  /\ rs = firstn 500
            (Sql.order_by_desc Pg.created_at
               (filter
                  (fun r =>
                     String.eqb (Pg.status r)
                       (trim (to_string
                                (or_else (opt_get (query req) "status")
                                   (VStr "requested")))))
                  (Pg.rows db))).
Proof.
  unfold Server.get_admin_requests, Server.requireAdmin.
  destruct (_ || _); [intros [= _ _]; discriminate|].
  unfold Server.list_requests, ToString, Pg.select_by_status.
  destruct (printable _); [|discriminate].
  destruct (Pg.fault db); [discriminate|].
  intros H. apply (f_equal snd) in H as Hs. cbn [snd] in Hs.
  apply (f_equal fst) in H. cbn [fst] in H. apply Returns_inj in H.
  apply (f_equal payload) in H. cbn [payload json] in H.
  split; [now symmetry|]. split; [reflexivity|]. split; [reflexivity|].
  now injection H as <-.
Qed.

Lemma listing_reads_only (env : Env) (req : Request) (db : Pg.Store) :
  snd (Server.get_admin_requests env req db) = db.
Proof.
  unfold Server.get_admin_requests, Server.requireAdmin.
  destruct (_ || _); [reflexivity|].
  unfold Server.list_requests. destruct (ToString _); [|reflexivity].
  now destruct (Pg.select_by_status _ _).
Qed.

(** What the update leaves in the table, whatever it answers. *)
Lemma patch_store (env : Env) (req : Request) (db : Pg.Store) :
  (snd (Server.patch_admin_request env req db) = db
   /\ forall resp,
        fst (Server.patch_admin_request env req db) = Returns resp ->
        status_code resp <> 200)
  \/ exists key,
       Pg.read_id db (params_id req) = Some key
       /\ Pg.fault db = None
       /\ printable (or_else (opt_get (body req) "status") (VStr "")) = true
       /\ In (trim (to_string (or_else (opt_get (body req) "status") (VStr ""))))
            Server.allowed
       /\ Server.patch_admin_request env req db
          = (Returns (json OkBody),
             Pg.set_rows db
               (map (fun r =>
                       if (Pg.id r =? key)%Z
                       then Pg.set_status r
                              (trim (to_string
                                       (or_else (opt_get (body req) "status")
                                          (VStr ""))))
                       else r)
                  (Pg.rows db))).
Proof.
  unfold Server.patch_admin_request, Server.requireAdmin.
  destruct (_ || _); [left; split; [reflexivity | now intros resp [= <-]]|].
  destruct (update_request_cases req db)
    as [[Hp ->] | [(Hp & Hn & ->) | [(Hp & Ha & [err ->] & Hbad)
       | [(Hp & Ha & Hf & key & Hk & Hnone & ->)
         | (Hp & Ha & Hf & key & Hk & Hsome & ->)]]]];
    try (left; split; [reflexivity | intros resp Hr; cbn [fst] in Hr;
                                     try discriminate Hr;
                                     apply Returns_inj in Hr; now subst resp]).
  right. exists key. repeat split; assumption.
Qed.

(** X9.  The listing never writes, and the update never takes the table
    out of the three statuses: if every row carries requested, scheduled
    or cancelled before a call to the update route, whatever the call
    and its answer, every row does afterwards. *)
Theorem admin_routes_keep_statuses (env : Env) (req : Request) (db : Pg.Store) :
  snd (Server.get_admin_requests env req db) = db
  /\ (Spec.statuses_allowed db ->
      Spec.statuses_allowed (snd (Server.patch_admin_request env req db))).
Proof.
  split; [apply listing_reads_only|]. intros Hok.
  destruct (patch_store env req db) as [[-> _] | (key & _ & _ & _ & Ha & ->)];
    [exact Hok|].
  cbn [snd]. intros r' Hr'. cbn [Pg.rows Pg.set_rows] in Hr'.
  apply in_map_iff in Hr'. destruct Hr' as (r & <- & Hr).
  destruct (Pg.id r =? key)%Z; [exact Ha | now apply Hok].
Qed.

Lemma updated_rows_status (key : Z) (st : string) (rs : list Pg.Row) (r' : Pg.Row) :
  In r' (map (fun r => if (Pg.id r =? key)%Z then Pg.set_status r st else r) rs) ->
  Pg.id r' = key -> Pg.status r' = st.
Proof.
  intros Hin Hid. apply in_map_iff in Hin. destruct Hin as (r & <- & _).
  destruct (Pg.id r =? key)%Z eqn:E; [reflexivity|].
  apply Z.eqb_neq in E. contradiction.
Qed.

(** X10.  After an update answered 200, every listing answered 200 shows
    the rows of the updated key under the new status only: a listing for
    any other status shows none of them, and a listing for the new
    status shows all of them when at most 500 rows carry it. *)
Theorem moved_request_changes_listing
    (env : Env) (req : Request) (db db' : Pg.Store) (resp : Response Pg.Row)
    (key : Z) :
  Server.patch_admin_request env req db = (Returns resp, db') ->
  status_code resp = 200 ->
  Pg.read_id db (params_id req) = Some key ->
  forall env2 req2 rs db2,
    Server.get_admin_requests env2 req2 db' = (Returns (json (RequestsBody rs)), db2) ->
    let st := trim (to_string (or_else (opt_get (body req) "status") (VStr ""))) in
    let st2 :=
      trim (to_string (or_else (opt_get (query req2) "status") (VStr "requested"))) in
    (st2 <> st -> forall r, In r rs -> Pg.id r <> key)
    /\ (st2 = st ->
        length (filter (fun r => String.eqb (Pg.status r) st) (Pg.rows db')) <= 500 ->
        forall r, In r (Pg.rows db') -> Pg.id r = key -> In r rs).
Proof.
  intros Hp Hc Hk env2 req2 rs db2 Hl st st2.
  assert (Hst : forall r, In r (Pg.rows db') -> Pg.id r = key -> Pg.status r = st).
  { pose proof (patch_store env req db) as Hs. rewrite Hp in Hs.
    cbn [fst snd] in Hs.
    destruct Hs as [[_ Hne] | (key' & Hk' & _ & _ & _ & Heq)];
      [now contradiction (Hne resp)|].
    injection Heq as _ ->.
    assert (key' = key) by congruence. subst key'.
    intros r Hr Hid. cbn [Pg.rows Pg.set_rows] in Hr.
    now apply (updated_rows_status key st (Pg.rows db)). }
  apply listing_answer in Hl. destruct Hl as (-> & _ & _ & ->). fold st2. split.
  - intros Hne r Hr Hid. apply firstn_subset in Hr.
    apply (Permutation_in _ (order_by_desc_perm Pg.created_at _)) in Hr.
    apply filter_In in Hr. destruct Hr as [Hr Hs]. apply String.eqb_eq in Hs.
    apply Hne. rewrite <- Hs. now apply Hst.
  - intros -> Hlen r Hr Hid.
    rewrite firstn_all2
      by (now rewrite (Permutation_length (order_by_desc_perm Pg.created_at _))).
    apply (Permutation_in _ (Permutation_sym (order_by_desc_perm Pg.created_at _))).
    apply filter_In. split; [exact Hr|]. apply String.eqb_eq. now apply Hst.
Qed.

Lemma hits_after_update (key key' : Z) (st : string) (rs : list Pg.Row) :
  length
    (filter (fun r => (Pg.id r =? key)%Z)
       (map (fun r => if (Pg.id r =? key')%Z then Pg.set_status r st else r) rs))
  = length (filter (fun r => (Pg.id r =? key)%Z) rs).
Proof.
  induction rs as [|r rs IH]; simpl; [reflexivity|].
  assert (Hid : Pg.id (if (Pg.id r =? key')%Z then Pg.set_status r st else r)
                = Pg.id r) by (now destruct (Pg.id r =? key')%Z).
  rewrite Hid. destruct (Pg.id r =? key)%Z; simpl; now rewrite IH.
Qed.

Lemma update_over_update (key : Z) (st1 st2 : string) (rs : list Pg.Row) :
  map (fun r => if (Pg.id r =? key)%Z then Pg.set_status r st2 else r)
    (map (fun r => if (Pg.id r =? key)%Z then Pg.set_status r st1 else r) rs)
  = map (fun r => if (Pg.id r =? key)%Z then Pg.set_status r st2 else r) rs.
Proof.
  rewrite map_map. apply map_ext. intros r.
  destruct (Pg.id r =? key)%Z eqn:E; [|now rewrite E].
  cbn [Pg.set_status Pg.id]. now rewrite E.
Qed.

(** X11.  Of two updates of the same key the later one decides: when
    the second call passes the guard with an allowed status and the
    store accepts its statement, its answer and the store it leaves are
    the same whether or not the first call was made, whatever the first
    call asked for.  In particular repeating an update changes nothing
    more. *)
Theorem later_update_wins
    (env : Env) (req1 req2 : Request) (db : Pg.Store) (key : Z) (s : string) :
  Spec.authorized env req2 ->
  ToString (or_else (opt_get (body req2) "status") (VStr "")) = Returns s ->
  In (trim s) Server.allowed ->
  Pg.fault db = None ->
  Pg.read_id db (params_id req2) = Some key ->
  params_id req1 = params_id req2 ->
  Server.patch_admin_request env req2
    (snd (Server.patch_admin_request env req1 db))
  = Server.patch_admin_request env req2 db.
Proof.
  intros Hauth Hs Ha Hf Hk Hid.
  destruct (patch_store env req1 db) as [[-> _] | (key1 & Hk1 & _ & _ & _ & ->)];
    [reflexivity|].
  rewrite Hid, Hk in Hk1. injection Hk1 as <-. cbn [snd].
  unfold Server.patch_admin_request.
  rewrite !(requireAdmin_authorized _ _ _ _ Hauth).
  apply allowed_has in Ha.
  unfold Server.update_request, Pg.update_status. rewrite Hs, Ha. cbn [negb].
  cbn [Pg.fault Pg.read_id Pg.rows Pg.set_rows]. rewrite Hf, Hk.
  rewrite hits_after_update, update_over_update. reflexivity.
Qed.

Lemma later_update_wins_witness :
  map Pg.status
    (Pg.rows
       (snd (Server.patch_admin_request Examples.secret
               (Examples.admin_request "s3cret" (VObj []) "2"
                  (VObj [("status", VStr "requested")]))
               (snd (Server.patch_admin_request Examples.secret
                       (Examples.admin_request "s3cret" (VObj []) "2"
                          (VObj [("status", VStr "cancelled")]))
                       Examples.three_rows)))))
  = ["requested"; "requested"; "requested"].
Proof.
  rewrite (later_update_wins Examples.secret
             (Examples.admin_request "s3cret" (VObj []) "2"
                (VObj [("status", VStr "cancelled")]))
             (Examples.admin_request "s3cret" (VObj []) "2"
                (VObj [("status", VStr "requested")]))
             Examples.three_rows 2%Z "requested").
  - reflexivity.
  - exists "s3cret". repeat split. discriminate.
  - reflexivity.
  - left. reflexivity.
  - reflexivity.
  - reflexivity.
  - reflexivity.
Defined.

Lemma moved_request_changes_listing_witness :
  In (Examples.request_row 1 100 "Ann" "scheduled")
    (firstn 500
       (Sql.order_by_desc Pg.created_at
          (filter (fun r => String.eqb (Pg.status r) "scheduled")
             (Pg.rows
                (snd (Server.patch_admin_request Examples.secret
                        (Examples.admin_request "s3cret" (VObj []) "1"
                           (VObj [("status", VStr "scheduled")]))
                        Examples.three_rows)))))).
Proof.
  refine (proj2
            (moved_request_changes_listing Examples.secret
               (Examples.admin_request "s3cret" (VObj []) "1"
                  (VObj [("status", VStr "scheduled")]))
               Examples.three_rows _ _ 1%Z eq_refl eq_refl eq_refl
               Examples.secret
               (Examples.admin_request "s3cret"
                  (VObj [("status", VStr "scheduled")]) "" VUndefined)
               _ _ eq_refl)
            eq_refl _ (Examples.request_row 1 100 "Ann" "scheduled") _ eq_refl).
  - vm_compute. lia.
  - left. reflexivity.
Defined.



End AdminComposition.


(* ================================================================== *)
(** * The submission route of server/server.js *)
(* ================================================================== *)

Section Submission.
Import Http.

Lemma accepted_date_plain (d : value) :
  isValidISODate d = Returns true -> Spec.plain d = true.
Proof.
  intros H. apply isValidISODate_returns in H. destruct H as [_ H].
  now apply valid_date_plain.
Qed.

Lemma accepted_sequences_plain (b : value) (v : Validation) :
  Server.validateBooking b = Returns v ->
  errors v = [] ->
  Spec.plain (dates (preferences (cleaned v))) = true
  /\ Spec.plain (windows (preferences (cleaned v))) = true.
Proof.
  intros Hv He.
  destruct (accepted_well_formed b v Hv He)
    as ((x & l & Hd) & Hvd & (w & l' & Hw) & Hvw & _).
  rewrite Hd in *. rewrite Hw in *. cbn [Spec.items_of] in Hvd, Hvw.
  split; apply plain_array.
  - eapply Forall_impl; [|exact Hvd]. intros a. apply accepted_date_plain.
  - eapply Forall_impl; [|exact Hvw]. intros a (s & -> & _). reflexivity.
Qed.

(** X13.  The submission route of server/server.js, whatever the INSERT
    does: what the validator throws is thrown out of the handler before
    it answers, the store untouched; a submission with errors is answered 400
    with the errors and the INSERT is not reached; an accepted one
    reaches the INSERT with the JSON text of its two sequences, text
    that reads back as the sequences themselves, and is answered 200
    with the key the store returned, or 500 with the store untouched
    when the store rejects the statement. *)
Theorem submission_route_outcomes
    (insert : Pg.Store -> list (option string) -> outcome (Z * Pg.Store))
    (req : Request) (db : Pg.Store) :
  (forall e, Server.validateBooking (body req) = Throws e ->
             Server.post_booking_request insert req db = (Throws e, db))
  /\ forall v, Server.validateBooking (body req) = Returns v ->
       (errors v <> [] ->
        Server.post_booking_request insert req db
        = (Returns (status_json 400 (ErrorsBody (errors v))), db))
       /\ (errors v = [] ->
           exists dj wj rest,
             Server.insert_params (cleaned v) = Some dj :: Some wj :: rest
             /\ Json.parse dj = Returns (dates (preferences (cleaned v)))
             /\ Json.parse wj = Returns (windows (preferences (cleaned v)))
             /\ (forall new_id db',
                   insert db (Server.insert_params (cleaned v)) = Returns (new_id, db') ->
                   Server.post_booking_request insert req db
                   = (Returns (json (RequestIdBody new_id)), db'))
             /\ (forall err,
                   insert db (Server.insert_params (cleaned v)) = Throws err ->
                   Server.post_booking_request insert req db
                   = (Returns
                        (status_json 500
                           (ErrorBody (message_or err "Database insert failed"))),
                      db))).
Proof.
  unfold Server.post_booking_request. split.
  - intros e ->. reflexivity.
  - intros v Hv. rewrite Hv. split.
    + intros Hne. destruct (errors v); [contradiction | reflexivity].
    + intros He. rewrite He. cbn [length Nat.eqb negb].
      destruct (accepted_sequences_plain _ _ Hv He) as [Hd Hw].
      destruct (parse_stringify _ Hd) as (dj & Hdj & Hdp).
      destruct (parse_stringify _ Hw) as (wj & Hwj & Hwp).
      exists dj, wj. eexists. unfold Server.insert_params at 1.
      rewrite Hdj, Hwj. split; [reflexivity|].
      split; [exact Hdp|]. split; [exact Hwp|]. split.
      * intros new_id db' ->. reflexivity.
      * intros err ->. reflexivity.
Qed.

End Submission.

(* ================================================================== *)
(** * The file-based store under its two routes *)
(* ================================================================== *)

Section FileStore.
Import Http.

Lemma FileServer_validate_phone (b : value) (v : Validation) :
  FileServer.validate b = Returns v ->
  Spec.all_digits (phone (customer (cleaned v))) = true.
Proof.
  unfold FileServer.validate. intros H. step_binds H.
  injection H as <-. cbn [cleaned customer phone].
  match goal with
  | E : normalizePhone _ = Returns _ |- _ => exact (normalizePhone_digits _ _ E)
  end.
Qed.

(** What the file-based validator accepts. *)
Lemma FileServer_accepted (b : value) (v : Validation) :
  FileServer.validate b = Returns v ->
  errors v = [] ->
  let c := cleaned v in
  (Spec.filled_array (dates (preferences c))
   /\ Forall (fun d => isValidISODate d = Returns true)
        (Spec.items_of (dates (preferences c)))
   /\ Spec.filled_array (windows (preferences c))
   /\ Forall (fun w => set_has allowedWindows w = true)
        (Spec.items_of (windows (preferences c))))
  /\ name (customer c) <> "" /\ line1 (address c) <> ""
  /\ city (address c) <> "" /\ state (address c) <> "" /\ zip (address c) <> ""
  /\ phone (customer c) <> "" /\ Spec.all_digits (phone (customer c)) = true.
Proof.
  intros Hv He c. subst c.
  destruct (FileServer_validate_collects b v Hv) as [Hp Hc].
  pose proof (FileServer_validate_phone b v Hv) as Hph.
  rewrite He in Hc. symmetry in Hc.
  repeat (apply app_eq_nil in Hc;
          let H := fresh "Hr" in destruct Hc as [H Hc]).
  apply sequence_filled in Hr, Hr0.
  apply no_errors_valid_dates in Hr1. apply no_errors_allowed_windows in Hr2.
  apply required_nil in Hr3, Hr4, Hr5, Hr6, Hr7, Hc.
  rewrite Hp. cbn [dates windows]. repeat split; assumption.
Qed.

(** The accepted submission in the table. *)
Lemma file_post_accepted (req : Request) (db : Sqlite.Store) (v : Validation) :
  FileServer.validate (body req) = Returns v ->
  errors v = [] ->
  Sqlite.fault db = None ->
  exists r,
    FileServer.post_booking_request req db
    = (Returns (json (RequestIdBody (Sqlite.next_id db))),
       {| Sqlite.rows := Sqlite.rows db ++ [r];
          Sqlite.next_id := (Sqlite.next_id db + 1)%Z;
          Sqlite.now := Sqlite.now db;
          Sqlite.fault := Sqlite.fault db |})
    /\ Sqlite.id r = Sqlite.next_id db
    /\ Sqlite.created_at r = Sqlite.now db
    /\ Spec.posted_row r
    /\ FileServer.listed r
       = Returns {| FileServer.row := r;
                    FileServer.preferred_dates := dates (preferences (cleaned v));
                    FileServer.preferred_windows := windows (preferences (cleaned v)) |}.
Proof.
  intros Hv He Hf.
  destruct (FileServer_accepted _ _ Hv He)
    as ((Hfd & Hvd & Hfw & Hvw) & Hn & Hl1 & Hci & Hst & Hz & Hph & Hdig).
  destruct (validated_sequences _ _ Hv He) as [Hpd Hpw].
  destruct (parse_stringify _ Hpd) as (dj & Hdj & Hdp).
  destruct (parse_stringify _ Hpw) as (wj & Hwj & Hwp).
  unfold FileServer.post_booking_request. rewrite Hv, He. cbn [length Nat.eqb negb].
  unfold Sqlite.insert. rewrite Hf, Hdj, Hwj.
  eexists. split; [reflexivity|]. split; [reflexivity|]. split; [reflexivity|].
  assert (Hlisted :
            forall r,
              Sqlite.preferred_dates_json r = dj ->
              Sqlite.preferred_windows_json r = wj ->
              FileServer.listed r
              = Returns {| FileServer.row := r;
                           FileServer.preferred_dates :=
                             dates (preferences (cleaned v));
                           FileServer.preferred_windows :=
                             windows (preferences (cleaned v)) |}).
  { intros r Hd Hw. unfold FileServer.listed. now rewrite Hd, Hw, Hdp, Hwp. }
  split; [|now apply Hlisted].
  unfold Spec.posted_row.
  cbn [Sqlite.status Sqlite.name Sqlite.line1 Sqlite.city Sqlite.state Sqlite.zip
       Sqlite.phone].
  repeat (split; [first [reflexivity | assumption]|]).
  eexists. eexists. split; [now apply Hlisted|]. repeat split; assumption.
Qed.

Lemma file_post_appends_or_nothing_aux (req : Request) (db : Sqlite.Store) :
  (snd (FileServer.post_booking_request req db) = db
   /\ forall i, fst (FileServer.post_booking_request req db)
                <> Returns (json (RequestIdBody i)))
  \/ exists r,
       FileServer.post_booking_request req db
       = (Returns (json (RequestIdBody (Sqlite.id r))),
          {| Sqlite.rows := Sqlite.rows db ++ [r];
             Sqlite.next_id := (Sqlite.next_id db + 1)%Z;
             Sqlite.now := Sqlite.now db;
             Sqlite.fault := Sqlite.fault db |})
       /\ Sqlite.id r = Sqlite.next_id db
       /\ Sqlite.created_at r = Sqlite.now db
       /\ Spec.posted_row r.
Proof.
  destruct (FileServer.validate (body req)) as [v|e] eqn:Hv.
  2:{ left. unfold FileServer.post_booking_request. rewrite Hv.
      split; [reflexivity | discriminate]. }
  destruct (errors v) as [|m ms] eqn:He.
  2:{ left. unfold FileServer.post_booking_request. rewrite Hv, He.
      split; [reflexivity | discriminate]. }
  destruct (Sqlite.fault db) as [msg|] eqn:Hf.
  { left. unfold FileServer.post_booking_request, Sqlite.insert.
    rewrite Hv, He, Hf. split; [reflexivity | discriminate]. }
  right. destruct (file_post_accepted req db v Hv He Hf)
    as (r & Hpost & Hid & Hat & Hrow & _).
  exists r. rewrite Hf in Hpost. rewrite Hid.
  split; [exact Hpost|]. split; [reflexivity|]. split; [exact Hat | exact Hrow].
Qed.

(** X14.  The submission route of the file-based server either leaves
    the store exactly as it was, and then answers no 200, or appends
    one row and touches nothing else: the row takes the next key, the
    time of the store and the status requested, carries non-empty name,
    street, city, state and ZIP and a non-empty digits-only phone, and
    its two JSON texts read back as non-empty sequences of accepted
    dates and windows; the answer is then the 200 that names the key. *)
Theorem file_post_appends_or_nothing (req : Request) (db : Sqlite.Store) :
  (snd (FileServer.post_booking_request req db) = db
   /\ forall i, fst (FileServer.post_booking_request req db)
                <> Returns (json (RequestIdBody i)))
  \/ exists r,
       FileServer.post_booking_request req db
       = (Returns (json (RequestIdBody (Sqlite.id r))),
          {| Sqlite.rows := Sqlite.rows db ++ [r];
             Sqlite.next_id := (Sqlite.next_id db + 1)%Z;
             Sqlite.now := Sqlite.now db;
             Sqlite.fault := Sqlite.fault db |})
       /\ Sqlite.id r = Sqlite.next_id db
       /\ Sqlite.created_at r = Sqlite.now db
       /\ Spec.posted_row r.
Proof. exact (file_post_appends_or_nothing_aux req db). Qed.

Lemma file_listing_reads_only (req : Request) (db : Sqlite.Store) :
  snd (FileServer.get_admin_requests req db) = db.
Proof.
  unfold FileServer.get_admin_requests.
  destruct (call_trim _); [|reflexivity].
  destruct (Sqlite.select_by_status _ _); [|reflexivity].
  now destruct (FileServer.map_rows _ _).
Qed.

Lemma NoDup_snoc {A : Type} (l : list A) (x : A) :
  NoDup l -> ~ In x l -> NoDup (l ++ [x]).
Proof.
  intros Hl Hx. apply (Permutation_NoDup (Permutation_cons_append l x)).
  now constructor.
Qed.

(** X15.  Both routes of the file-based server keep the store in order:
    if the keys are distinct and below the next key, and every row is
    one the submission route wrote, the same holds after any call of
    either route, whatever it answers; and the key a 200 names was
    carried by no row before. *)
Theorem file_routes_keep_store (req : Request) (db : Sqlite.Store) :
  Spec.keys_in_order db ->
  Spec.posted_rows db ->
  (Spec.keys_in_order (snd (FileServer.post_booking_request req db))
   /\ Spec.posted_rows (snd (FileServer.post_booking_request req db)))
  /\ (forall i,
        fst (FileServer.post_booking_request req db)
        = Returns (json (RequestIdBody i)) ->
        forall r, In r (Sqlite.rows db) -> Sqlite.id r <> i)
  /\ snd (FileServer.get_admin_requests req db) = db.
Proof.
  intros [Hnd Hlt] Hrows.
  split; [|split; [|apply file_listing_reads_only]].
  - destruct (file_post_appends_or_nothing_aux req db)
      as [[-> _] | (r & -> & Hid & _ & Hrow)]; cbn [snd].
    + now split.
    + split.
      * split; cbn [Sqlite.rows Sqlite.next_id].
        -- rewrite map_app. cbn [map]. apply NoDup_snoc; [exact Hnd|].
           intros Hin. apply in_map_iff in Hin. destruct Hin as (r' & Heq & Hr').
           apply Hlt in Hr'. lia.
        -- intros r' Hr'. apply in_app_or in Hr'. destruct Hr' as [Hr' | [<- | []]].
           ++ apply Hlt in Hr'. lia.
           ++ lia.
      * intros r' Hr'. cbn [Sqlite.rows] in Hr'. apply in_app_or in Hr'.
        destruct Hr' as [Hr' | [<- | []]]; [now apply Hrows | exact Hrow].
  - intros i Hi r Hr.
    destruct (file_post_appends_or_nothing_aux req db)
      as [[_ Hno] | (r' & Heq & Hid & _)].
    + now contradiction (Hno i).
    + rewrite Heq in Hi. cbn [fst] in Hi. injection Hi as <-.
      apply Hlt in Hr. lia.
Qed.

(** The listing of a store that the submission route filled. *)
Lemma file_listing_total (req : Request) (db : Sqlite.Store) (st : string) :
  Spec.posted_rows db ->
  Sqlite.fault db = None ->
  call_trim (or_else (opt_get (query req) "status") (VStr "requested")) = Returns st ->
  exists out,
    FileServer.get_admin_requests req db = (Returns (json (RequestsBody out)), db)
    /\ map FileServer.row out
       = firstn 500
           (Sql.order_by_desc Sqlite.created_at
              (filter (fun r => String.eqb (Sqlite.status r) st) (Sqlite.rows db)))
    /\ forall e, In e out -> FileServer.listed (FileServer.row e) = Returns e.
Proof.
  intros Hrows Hf Hst. apply file_listing_readable; try assumption.
  intros r Hr _.
  destruct (Hrows r Hr) as (_ & _ & _ & _ & _ & _ & _ & _ & ds & ws & Hl & _).
  eexists. exact Hl.
Qed.

(** X16.  A store that only the submission route has written can always
    be listed: with the store in reach and a status that is absent,
    otherwise falsy, or a string, the listing answers 200 and leaves the
    store as it was; it shows at most 500 rows, each with the status
    asked for (requested when none is named) and with its two sequences
    read back as non-empty arrays; and since such a store holds
    requested rows only, a listing for any other status is empty. *)
Theorem file_listing_of_posted_store (req : Request) (db : Sqlite.Store) :
  Spec.posted_rows db ->
  Sqlite.fault db = None ->
  Spec.text_like (opt_get (query req) "status") ->
  exists st out,
    FileServer.get_admin_requests req db = (Returns (json (RequestsBody out)), db)
    /\ (truthy (opt_get (query req) "status") = false -> st = "requested")
    /\ (forall s, opt_get (query req) "status" = VStr s -> s <> "" -> st = trim s)
    /\ length out <= 500
    /\ (forall e, In e out ->
          In (FileServer.row e) (Sqlite.rows db)
          /\ Sqlite.status (FileServer.row e) = st
          /\ Spec.filled_array (FileServer.preferred_dates e)
          /\ Spec.filled_array (FileServer.preferred_windows e))
    /\ (st <> "requested" -> out = []).
Proof.
  intros Hrows Hf Hq.
  assert (Hst : exists st,
             call_trim (or_else (opt_get (query req) "status") (VStr "requested"))
             = Returns st
             /\ (truthy (opt_get (query req) "status") = false -> st = "requested")
             /\ (forall s, opt_get (query req) "status" = VStr s -> s <> "" ->
                           st = trim s)).
  { unfold or_else. destruct Hq as [Hfalse | [s Hs]].
    - rewrite Hfalse. eexists. split; [reflexivity|]. split; [reflexivity|].
      intros s Hs Hne. rewrite Hs in Hfalse. simpl in Hfalse.
      destruct s; [contradiction | discriminate].
    - rewrite Hs. destruct s as [|c s].
      + eexists. split; [reflexivity|]. split; [reflexivity|].
        intros s' [= <-] Hne. contradiction.
      + eexists. split; [reflexivity|]. split; [discriminate|].
        now intros s' [= <-] _. }
  destruct Hst as (st & Hst & Hdef & Hstr).
  destruct (file_listing_total req db st Hrows Hf Hst) as (out & Hres & Hmap & Hl).
  exists st, out. split; [exact Hres|]. split; [exact Hdef|]. split; [exact Hstr|].
  assert (Hin : forall e, In e out ->
                          In (FileServer.row e) (Sqlite.rows db)
                          /\ Sqlite.status (FileServer.row e) = st).
  { intros e He. apply (in_map FileServer.row) in He. rewrite Hmap in He.
    apply firstn_subset in He.
    apply (Permutation_in _ (order_by_desc_perm Sqlite.created_at _)) in He.
    apply filter_In in He. destruct He as [He Hs].
    split; [exact He | now apply String.eqb_eq]. }
  split.
  { rewrite <- (length_map FileServer.row), Hmap. apply firstn_le_length. }
  split.
  - intros e He. destruct (Hin e He) as [Hr Hs]. split; [exact Hr|].
    split; [exact Hs|].
    destruct (Hrows _ Hr) as (_ & _ & _ & _ & _ & _ & _ & _ & ds & ws & Hl' & Hd & Hw & _).
    rewrite (Hl e He) in Hl'. injection Hl' as ->. now split.
  - intros Hne. destruct out as [|e out]; [reflexivity|]. exfalso.
    destruct (Hin e (or_introl eq_refl)) as [Hr Hs].
    destruct (Hrows _ Hr) as (Hreq & _). congruence.
Qed.

Lemma filter_all {A : Type} (f : A -> bool) (l : list A) :
  (forall x, In x l -> f x = true) -> filter f l = l.
Proof.
  induction l as [|x l IH]; simpl; intros H; [reflexivity|].
  rewrite (H x (or_introl eq_refl)), IH; [reflexivity|].
  intros y Hy. apply H. now right.
Qed.

(** X17.  What is submitted can be looked up: after a submission the
    file-based server accepts, into a reachable store that only the
    submission route has written and that holds fewer than 500 rows,
    every listing that names no status (or names requested) answers 200
    and shows the new request, under the key the submission was answered
    with and with the dates and windows of the normalized record. *)
Theorem posted_request_is_listed
    (req req2 : Request) (db : Sqlite.Store) (v : Validation) :
  FileServer.validate (body req) = Returns v ->
  errors v = [] ->
  Sqlite.fault db = None ->
  Spec.posted_rows db ->
  length (Sqlite.rows db) < 500 ->
  truthy (opt_get (query req2) "status") = false
  \/ opt_get (query req2) "status" = VStr "requested" ->
  exists out e,
    fst (FileServer.post_booking_request req db)
    = Returns (json (RequestIdBody (Sqlite.id (FileServer.row e))))
    /\ FileServer.get_admin_requests req2
         (snd (FileServer.post_booking_request req db))
       = (Returns (json (RequestsBody out)),
          snd (FileServer.post_booking_request req db))
    /\ In e out
    /\ FileServer.preferred_dates e = dates (preferences (cleaned v))
    /\ FileServer.preferred_windows e = windows (preferences (cleaned v)).
Proof.
  intros Hv He Hf Hrows Hlen Hq.
  destruct (file_post_accepted req db v Hv He Hf)
    as (r & Hpost & Hid & _ & Hrow & Hlr).
  rewrite Hpost. cbn [fst snd].
  set (db' := {| Sqlite.rows := Sqlite.rows db ++ [r];
                 Sqlite.next_id := (Sqlite.next_id db + 1)%Z;
                 Sqlite.now := Sqlite.now db;
                 Sqlite.fault := Sqlite.fault db |}).
  assert (Hrows' : Spec.posted_rows db').
  { intros x Hx. cbn [Sqlite.rows db'] in Hx. apply in_app_or in Hx.
    destruct Hx as [Hx | [<- | []]]; [now apply Hrows | exact Hrow]. }
  assert (Hst : call_trim (or_else (opt_get (query req2) "status") (VStr "requested"))
                = Returns "requested").
  { unfold or_else. destruct Hq as [-> | ->]; reflexivity. }
  destruct (file_listing_total req2 db' "requested" Hrows' Hf Hst)
    as (out & Hres & Hmap & Hl).
  assert (Hin : In r (map FileServer.row out)).
  { rewrite Hmap, filter_all.
    - rewrite firstn_all2.
      + apply (Permutation_in _
                 (Permutation_sym (order_by_desc_perm Sqlite.created_at _))).
        cbn [Sqlite.rows db']. apply in_or_app. right. now left.
      + rewrite (Permutation_length (order_by_desc_perm Sqlite.created_at _)).
        cbn [Sqlite.rows db']. rewrite length_app. cbn [length]. lia.
    - intros x Hx. destruct (Hrows' x Hx) as [-> _]. reflexivity. }
  apply in_map_iff in Hin. destruct Hin as (e & Hrow_e & He_in).
  exists out, e. rewrite Hrow_e, Hid.
  split; [reflexivity|]. split; [exact Hres|]. split; [exact He_in|].
  pose proof (Hl e He_in) as Hle. rewrite Hrow_e, Hlr in Hle.
  injection Hle as <-. split; reflexivity.
Qed.

(** The store after one accepted submission is in order. *)
Lemma after_jane_keys : Spec.keys_in_order Examples.after_jane.
Proof.
  split.
  - vm_compute. constructor; [intros []|constructor].
  - intros r Hr. vm_compute in Hr. destruct Hr as [<- | []]. reflexivity.
Qed.

Lemma after_jane_posted : Spec.posted_rows Examples.after_jane.
Proof.
  intros r Hr. vm_compute in Hr. destruct Hr as [<- | []].
  unfold Spec.posted_row. cbn [Sqlite.status Sqlite.name Sqlite.line1 Sqlite.city
                               Sqlite.state Sqlite.zip Sqlite.phone].
  repeat (split; [first [reflexivity | discriminate]|]).
  exists (VArr [VStr "2025-03-01"]), (VArr [VStr "morning"]).
  split; [vm_compute; reflexivity|].
  split; [now exists (VStr "2025-03-01"), []|].
  split; [now exists (VStr "morning"), []|].
  split; repeat constructor.
Qed.

Lemma file_routes_keep_store_witness :
  Spec.keys_in_order Examples.after_jane
  /\ Spec.posted_rows Examples.after_jane
  /\ (Spec.keys_in_order
        (snd (FileServer.post_booking_request
                (Examples.submission Examples.jane_of_utah) Examples.after_jane))
      /\ Spec.posted_rows
           (snd (FileServer.post_booking_request
                   (Examples.submission Examples.jane_of_utah) Examples.after_jane)))
  /\ (forall i,
        fst (FileServer.post_booking_request
               (Examples.submission Examples.jane_of_utah) Examples.after_jane)
        = Returns (json (RequestIdBody i)) ->
        forall r, In r (Sqlite.rows Examples.after_jane) -> Sqlite.id r <> i)
  /\ snd (FileServer.get_admin_requests
            (Examples.submission Examples.jane_of_utah) Examples.after_jane)
     = Examples.after_jane.
Proof.
  split; [exact after_jane_keys|]. split; [exact after_jane_posted|].
  exact (file_routes_keep_store (Examples.submission Examples.jane_of_utah)
           Examples.after_jane after_jane_keys after_jane_posted).
Defined.

Lemma file_listing_of_posted_store_witness :
  Spec.posted_rows Examples.after_jane
  /\ Sqlite.fault Examples.after_jane = None
  /\ Spec.text_like
       (opt_get (query (Examples.anonymous_request (VObj [("status", VStr " scheduled ")])))
          "status")
  /\ exists st out,
       FileServer.get_admin_requests
         (Examples.anonymous_request (VObj [("status", VStr " scheduled ")]))
         Examples.after_jane
       = (Returns (json (RequestsBody out)), Examples.after_jane)
       /\ st = "scheduled" /\ out = [].
Proof.
  assert (Hq : Spec.text_like
                 (opt_get (query (Examples.anonymous_request
                                    (VObj [("status", VStr " scheduled ")])))
                    "status")).
  { right. exists " scheduled ". reflexivity. }
  split; [exact after_jane_posted|]. split; [reflexivity|]. split; [exact Hq|].
  destruct (file_listing_of_posted_store
              (Examples.anonymous_request (VObj [("status", VStr " scheduled ")]))
              Examples.after_jane after_jane_posted eq_refl Hq)
    as (st & out & Hres & _ & Hst & _ & _ & Hempty).
  assert (Hs : st = "scheduled").
  { apply (Hst " scheduled "); [reflexivity | discriminate]. }
  exists st, out. split; [exact Hres|]. split; [exact Hs|].
  apply Hempty. rewrite Hs. discriminate.
Defined.

Lemma posted_request_is_listed_witness :
  (exists v, FileServer.validate (body (Examples.submission Examples.jane_of_utah))
             = Returns v /\ errors v = [])
  /\ Sqlite.fault Examples.after_jane = None
  /\ Spec.posted_rows Examples.after_jane
  /\ length (Sqlite.rows Examples.after_jane) < 500
  /\ truthy (opt_get (query (Examples.anonymous_request (VObj []))) "status") = false
  /\ exists out e,
       fst (FileServer.post_booking_request
              (Examples.submission Examples.jane_of_utah) Examples.after_jane)
       = Returns (json (RequestIdBody (Sqlite.id (FileServer.row e))))
       /\ FileServer.get_admin_requests (Examples.anonymous_request (VObj []))
            (snd (FileServer.post_booking_request
                    (Examples.submission Examples.jane_of_utah) Examples.after_jane))
          = (Returns (json (RequestsBody out)),
             snd (FileServer.post_booking_request
                    (Examples.submission Examples.jane_of_utah) Examples.after_jane))
       /\ In e out
       /\ FileServer.preferred_dates e = VArr [VStr "2025-03-01"]
       /\ FileServer.preferred_windows e = VArr [VStr "morning"].
Proof.
  destruct (FileServer.validate (body (Examples.submission Examples.jane_of_utah)))
    as [v|x] eqn:Hv; [|vm_compute in Hv; discriminate].
  assert (He : errors v = []).
  { vm_compute in Hv. apply Returns_inj in Hv. subst v. reflexivity. }
  split; [exists v; split; [reflexivity | exact He]|].
  split; [reflexivity|]. split; [exact after_jane_posted|].
  split; [vm_compute; lia|]. split; [reflexivity|].
  destruct (posted_request_is_listed
              (Examples.submission Examples.jane_of_utah)
              (Examples.anonymous_request (VObj []))
              Examples.after_jane v Hv He eq_refl after_jane_posted
              ltac:(vm_compute; lia) (or_introl eq_refl))
    as (out & e & Hpost & Hres & Hin & Hd & Hw).
  exists out, e. split; [exact Hpost|]. split; [exact Hres|]. split; [exact Hin|].
  rewrite Hd, Hw. vm_compute in Hv. apply Returns_inj in Hv. subst v.
  split; reflexivity.
Defined.

End FileStore.

